(** * torrent-bot-v8: a shallow embedding of the download/zip/upload pipeline

    The script is a straight-line orchestration of three external tools
    (apt-get, aria2c, zip), one HTTP request and a handful of filesystem
    calls.  It is embedded here as a state-and-exception monad over an
    explicit world (a filesystem and the log of observable events), with
    everything the outside world answers collected in a record [Env].

    Python [str] values are sequences of Unicode code points, so that
    slicing ([filename[:100]]) and the regular-expression class [\s] mean
    what they mean in Python. *)

From Stdlib Require Import ZArith NArith List String Ascii DecimalString
  DecimalPos Lia.
From stdpp Require Import gmap list fin_maps.

Local Open Scope N_scope.

(* ===================================================================== *)
(** ** Python strings *)
(* ===================================================================== *)

Module PyStr.

(** A Python [str]: its code points. *)
Abbreviation pystr := (list N).

(** Decoding of the UTF-8 bytes of a literal of this file into code
    points; only used on the (well-formed) literals of the script. *)
Fixpoint utf8 (bs : list N) : pystr :=
  match bs with
  | [] => []
  | b :: t =>
    if b <? 0x80 then b :: utf8 t
    else if b <? 0xE0 then
      match t with
      | c1 :: t1 => ((b - 0xC0) * 64 + (c1 - 0x80)) :: utf8 t1
      | _ => []
      end
    else if b <? 0xF0 then
      match t with
      | c1 :: c2 :: t2 =>
        ((b - 0xE0) * 4096 + (c1 - 0x80) * 64 + (c2 - 0x80)) :: utf8 t2
      | _ => []
      end
    else
      match t with
      | c1 :: c2 :: c3 :: t3 =>
        ((b - 0xF0) * 262144 + (c1 - 0x80) * 4096 + (c2 - 0x80) * 64
         + (c3 - 0x80)) :: utf8 t3
      | _ => []
      end
  end.

Definition py (s : string) : pystr :=
  utf8 (map N_of_ascii (list_ascii_of_string s)).

Definition NL : pystr := [10].
Definition CR : pystr := [13].
Definition UNDERSCORE : N := 95.
Definition AMP : N := 38.
Definition SLASH : N := 47.

(** [a == b] on strings. *)
Fixpoint str_eqb (a b : pystr) : bool :=
  match a, b with
  | [], [] => true
  | x :: a', y :: b' => (x =? y) && str_eqb a' b'
  | _, _ => false
  end.

(** [s.startswith(p)]. *)
Fixpoint startswith (p s : pystr) : bool :=
  match p, s with
  | [], _ => true
  | x :: p', y :: s' => (x =? y) && startswith p' s'
  | _ :: _, [] => false
  end.

(** [sub in s]. *)
Fixpoint contains (sub s : pystr) : bool :=
  startswith sub s ||
  match s with
  | [] => false
  | _ :: t => contains sub t
  end.

(** [str.isspace] on one character, which is also the class [\s] of a
    [str] pattern: CPython's [_PyUnicode_IsWhitespace]. *)
Definition isspace (c : N) : bool :=
  ((0x09 <=? c) && (c <=? 0x0D)) || ((0x1C <=? c) && (c <=? 0x20))
  || (c =? 0x85) || (c =? 0xA0) || (c =? 0x1680)
  || ((0x2000 <=? c) && (c <=? 0x200A))
  || (c =? 0x2028) || (c =? 0x2029) || (c =? 0x202F) || (c =? 0x205F)
  || (c =? 0x3000).

Fixpoint lstrip (s : pystr) : pystr :=
  match s with
  | [] => []
  | c :: t => if isspace c then lstrip t else s
  end.

(** [s.strip()]. *)
Definition strip (s : pystr) : pystr := rev (lstrip (rev (lstrip s))).

(** [s.replace(a, b)] for single characters. *)
Definition replace_char (a b : N) (s : pystr) : pystr :=
  map (fun c => if c =? a then b else c) s.

(** The longest prefix of [s] whose characters satisfy [p]. *)
Fixpoint span (p : N -> bool) (s : pystr) : pystr :=
  match s with
  | [] => []
  | c :: t => if p c then c :: span p t else []
  end.

(** [str(n)] for an [int]. *)
Definition str_int (n : Z) : pystr :=
  py (NilZero.string_of_int (Z.to_int n)).

(** Truth value of a string: non-empty. *)
Definition nonempty (s : pystr) : bool :=
  match s with [] => false | _ => true end.

End PyStr.
Export PyStr.

(* ===================================================================== *)
(** ** Filename sanitizer *)
(* ===================================================================== *)

(** The character class of the first substitution: less-than,
    greater-than, colon, double quote, slash, backslash, vertical bar,
    question mark, asterisk. *)
Definition illegal_chars : pystr :=
  [0x3C; 0x3E; 0x3A; 0x22; 0x2F; 0x5C; 0x7C; 0x3F; 0x2A].

Definition illegal (c : N) : bool := existsb (N.eqb c) illegal_chars.

(** The first [re.sub]: each character of the class becomes [_]. *)
Definition sub_illegal (filename : pystr) : pystr :=
  map (fun c => if illegal c then UNDERSCORE else c) filename.

(** [re.sub(r'\s+', '_', filename)]: every maximal run of whitespace
    becomes one underscore.  [in_run] records that the previous character
    belonged to a run already replaced. *)
Fixpoint sub_spaces_from (in_run : bool) (filename : pystr) : pystr :=
  match filename with
  | [] => []
  | c :: t =>
    if isspace c then
      if in_run then sub_spaces_from true t
      else UNDERSCORE :: sub_spaces_from true t
    else c :: sub_spaces_from false t
  end.

Definition sub_spaces (filename : pystr) : pystr :=
  sub_spaces_from false filename.

Definition sanitize_filename (filename : pystr) : pystr :=
  let filename := sub_illegal filename in
  let filename := sub_spaces filename in
  take 100 filename.

(** [re.search(r'dn=([^&]+)', s)], returning group 1: the leftmost [dn=]
    that is followed by at least one character other than [&], with the
    longest such run. *)
Definition match_dn_here (s : pystr) : option pystr :=
  if startswith (py "dn=") s then
    match span (fun c => negb (c =? AMP)) (drop 3 s) with
    | [] => None
    | g => Some g
    end
  else None.

Fixpoint search_dn (s : pystr) : option pystr :=
  match match_dn_here s with
  | Some g => Some g
  | None =>
    match s with
    | [] => None
    | _ :: t => search_dn t
    end
  end.

(* ===================================================================== *)
(** ** Exceptions and results *)
(* ===================================================================== *)

(** The exceptions the script can meet.  All but [KeyboardInterrupt] are
    subclasses of [Exception]. *)
Inductive exn :=
| KeyboardInterrupt
| OSError (errno : pystr) (filename : pystr)
| CalledProcessError (cmd : list pystr) (returncode : Z)
| AttributeError (type_name attribute : pystr)
| KeyError (key : pystr)
| TypeError (type_name : pystr)
| OtherException (description : pystr).

(** [isinstance(e, Exception)]. *)
Definition is_Exception (e : exn) : bool :=
  match e with
  | KeyboardInterrupt => false
  | _ => true
  end.

Inductive result (A : Type) :=
| Ok (a : A)
| Raise (e : exn).
Arguments Ok {A} a.
Arguments Raise {A} e.

(* ===================================================================== *)
(** ** Parsed JSON values *)
(* ===================================================================== *)

(** What [response.json()] returns; [JNull] is Python's [None], a [JObj]
    is a [dict] given by its items.  Numbers are kept as integers: the
    script never computes with them. *)
#[local] Unset Elimination Schemes.
Inductive json :=
| JNull
| JBool (b : bool)
| JNum (n : Z)
| JStr (s : pystr)
| JArr (items : list json)
| JObj (items : list (pystr * json)).
#[local] Set Elimination Schemes.

(** [type(v).__name__]. *)
Definition type_name_of (v : json) : pystr :=
  match v with
  | JNull => py "NoneType"
  | JBool _ => py "bool"
  | JNum _ => py "int"
  | JStr _ => py "str"
  | JArr _ => py "list"
  | JObj _ => py "dict"
  end.

(** Truth value of a Python object. *)
Definition truthy (v : json) : bool :=
  match v with
  | JNull => false
  | JBool b => b
  | JNum n => negb (n =? 0)%Z
  | JStr s => nonempty s
  | JArr l => match l with [] => false | _ => true end
  | JObj l => match l with [] => false | _ => true end
  end.

Fixpoint assoc (k : pystr) (items : list (pystr * json)) : option json :=
  match items with
  | [] => None
  | (k', v) :: rest => if str_eqb k k' then Some v else assoc k rest
  end.

(** [d.get(k, default)]: only a [dict] has the method. *)
Definition dict_get (d : json) (k : pystr) (default : json) : result json :=
  match d with
  | JObj items =>
    match assoc k items with
    | Some v => Ok v
    | None => Ok default
    end
  | _ => Raise (AttributeError (type_name_of d) (py "get"))
  end.

(** [d[k]] for a string key [k]. *)
Definition subscript (d : json) (k : pystr) : result json :=
  match d with
  | JObj items =>
    match assoc k items with
    | Some v => Ok v
    | None => Raise (KeyError k)
    end
  | _ => Raise (TypeError (type_name_of d))
  end.

(** [v == s] for a string literal [s]. *)
Definition json_eq_str (v : json) (s : pystr) : bool :=
  match v with
  | JStr s' => str_eqb s' s
  | _ => false
  end.

(* ===================================================================== *)
(** ** The filesystem *)
(* ===================================================================== *)

(** Paths are compared as the strings the script builds: no symbolic
    links, no normalisation.  A filesystem maps the paths that exist to
    what is there. *)
Inductive node := File | Dir.

Abbreviation FS := (gmap (list N) node).

(** [k] lies below directory [d]. *)
Definition under (d k : pystr) : bool := startswith (d ++ [SLASH]) k.

Definition path_exists (fs : FS) (p : pystr) : bool :=
  match fs !! p with Some _ => true | None => false end.

Definition isfile (fs : FS) (p : pystr) : bool :=
  match fs !! p with Some File => true | _ => false end.

Definition isdir (fs : FS) (p : pystr) : bool :=
  match fs !! p with Some Dir => true | _ => false end.

(** The paths of [fs] below [d]. *)
Definition below (fs : FS) (d : pystr) : list pystr :=
  filter (fun k => under d k = true) (map fst (map_to_list fs)).

(** [os.listdir(d)]: the first path component of everything below [d]. *)
Definition listdir (fs : FS) (d : pystr) : result (list pystr) :=
  match fs !! d with
  | Some Dir =>
    Ok (remove_dups
          (map (fun k => span (fun c => negb (c =? SLASH))
                              (drop (S (length d)) k))
               (below fs d)))
  | Some File => Raise (OSError (py "ENOTDIR") d)
  | None => Raise (OSError (py "ENOENT") d)
  end.

(** [os.remove(p)]. *)
Definition remove (fs : FS) (p : pystr) : result FS :=
  match fs !! p with
  | Some File => Ok (delete p fs)
  | Some Dir => Raise (OSError (py "EISDIR") p)
  | None => Raise (OSError (py "ENOENT") p)
  end.

(** [os.rmdir(d)]: only an empty directory goes. *)
Definition rmdir (fs : FS) (d : pystr) : result FS :=
  match fs !! d with
  | Some Dir =>
    match below fs d with
    | [] => Ok (delete d fs)
    | _ => Raise (OSError (py "ENOTEMPTY") d)
    end
  | Some File => Raise (OSError (py "ENOTDIR") d)
  | None => Raise (OSError (py "ENOENT") d)
  end.

(** [shutil.rmtree(d)]: the directory and everything below it. *)
Definition rmtree (fs : FS) (d : pystr) : result FS :=
  match fs !! d with
  | Some Dir =>
    Ok (filter (fun kv => kv.1 <> d /\ under d kv.1 = false) fs)
  | Some File => Raise (OSError (py "ENOTDIR") d)
  | None => Raise (OSError (py "ENOENT") d)
  end.

(** The proper ancestors of a path: its non-empty prefixes that end just
    before a slash. *)
Fixpoint ancestors_from (seen rest : pystr) : list pystr :=
  match rest with
  | [] => []
  | c :: t =>
    (if (c =? SLASH) && nonempty seen then [seen] else [])
    ++ ancestors_from (seen ++ [c]) t
  end.

Definition ancestors (p : pystr) : list pystr := ancestors_from [] p.

(** [os.makedirs(p, exist_ok=True)]: creates [p] and its missing
    ancestors; an existing directory is accepted, a regular file in the
    way is an error. *)
Definition makedirs (fs : FS) (p : pystr) : result FS :=
  match find (isfile fs) (ancestors p) with
  | Some a => Raise (OSError (py "ENOTDIR") p)
  | None =>
    if isfile fs p then Raise (OSError (py "EEXIST") p)
    else Ok (foldr (fun d acc => <[d := Dir]> acc) fs (ancestors p ++ [p]))
  end.

(** [open(p, 'rb')]. *)
Definition open_rb (fs : FS) (p : pystr) : result unit :=
  match fs !! p with
  | Some File => Ok tt
  | Some Dir => Raise (OSError (py "EISDIR") p)
  | None => Raise (OSError (py "ENOENT") p)
  end.

(* ===================================================================== *)
(** ** Events, the world, and what the outside answers *)
(* ===================================================================== *)

(** The functions of the script. *)
Inductive fn :=
| F_install_dependencies
| F_get_torrent_info
| F_download_torrent
| F_create_zip
| F_upload_to_gofile
| F_cleanup_files.

(** What a run does that can be observed from outside, plus the entry
    into each function of the script ([ECall]). *)
Inductive event :=
| ECall (f : fn)
| EPrint (text : pystr)
| EInput (prompt : pystr)
| ESpawn (argv : list pystr) (cwd : option pystr)
| EMakedirs (path : pystr)
| ERemove (path : pystr)
| ERmdir (path : pystr)
| ERmtree (path : pystr)
| EPost (url : pystr) (file : pystr).

(** The filesystem and the events so far, latest first. *)
Record World := mkWorld {
  w_fs : FS;
  w_log : list event
}.

(** The events of a run in the order they happened. *)
Definition trace (w : World) : list event := rev (w_log w).

Definition initial (fs : FS) : World := mkWorld fs [].

(** A child process that was waited for: [subprocess.run]. *)
Record CompletedProcess := {
  returncode : Z;
  stderr : pystr;
  effect : FS -> FS          (* what the child did to the filesystem *)
}.

(** A child process read line by line: [subprocess.Popen].  [lines] are
    the values [readline] returns before the end of the stream; [ending]
    is the exit status [poll] then reports, or the exception that
    interrupted the reading. *)
Record Process := {
  lines : list pystr;
  ending : result Z;
  p_effect : FS -> FS
}.

(** An HTTP response: its status and what [.json()] gives. *)
Record Response := {
  status_code : Z;
  json_body : result json
}.

(** Everything a run receives from outside the script: the library
    functions whose tables are not reproduced here, and the answers of
    the user, the clock, the child processes and the remote host.  A
    [Raise] stands for the call raising instead of returning. *)
Record Env := {
  (* [urllib.parse.unquote] on a string that contains a percent sign *)
  unquote_escapes : pystr -> pystr;
  (* [str.lower] *)
  str_lower : pystr -> pystr;
  (* [str(v)] of a parsed JSON value, [str(e)] of an exception *)
  str_json : json -> pystr;
  str_exn : exn -> pystr;
  (* the two apt-get runs *)
  apt_update : result CompletedProcess;
  apt_install : result CompletedProcess;
  (* the line typed at the prompt *)
  stdin_line : result pystr;
  (* [int(time.time())] *)
  clock : Z;
  (* the aria2c run *)
  aria2c : result Process;
  (* the zip run *)
  zip : result CompletedProcess;
  (* the answer to the upload request *)
  gofile : result Response
}.

(* ===================================================================== *)
(** ** The monad of the script *)
(* ===================================================================== *)

Definition M (A : Type) : Type := World -> result A * World.

Definition ret {A} (a : A) : M A := fun w => (Ok a, w).

Definition raise {A} (e : exn) : M A := fun w => (Raise e, w).

Definition bind {A B} (m : M A) (k : A -> M B) : M B :=
  fun w =>
    match m w with
    | (Ok a, w') => k a w'
    | (Raise e, w') => (Raise e, w')
    end.

Declare Scope py_scope.
Delimit Scope py_scope with py.
Notation "x <- m ;; k" := (bind m (fun x => k))
  (at level 100, m at next level, right associativity) : py_scope.
Notation "m ;; k" := (bind m (fun _ => k))
  (at level 100, right associativity) : py_scope.
Local Open Scope py_scope.

(** [try: body / except ...: handler]: [handler e] is [None] when no
    clause catches [e]. *)
Definition try_except {A} (body : M A) (handler : exn -> option (M A)) : M A :=
  fun w =>
    match body w with
    | (Ok a, w') => (Ok a, w')
    | (Raise e, w') =>
      match handler e with
      | Some h => h w'
      | None => (Raise e, w')
      end
    end.

(** [except Exception as e: h e]. *)
Definition except_Exception {A} (h : exn -> M A) (e : exn) : option (M A) :=
  if is_Exception e then Some (h e) else None.

(** A bare [except: h]. *)
Definition except_all {A} (h : M A) (e : exn) : option (M A) := Some h.

Definition lift {A} (r : result A) : M A := fun w => (r, w).

Definition emit (e : event) : M unit :=
  fun w => (Ok tt, mkWorld (w_fs w) (e :: w_log w)).

Definition enter (f : fn) : M unit := emit (ECall f).

Definition get_fs : M FS := fun w => (Ok (w_fs w), w).

Definition set_fs (fs : FS) : M unit :=
  fun w => (Ok tt, mkWorld fs (w_log w)).

(** A filesystem call that changes the filesystem or raises. *)
Definition fs_update (op : FS -> result FS) : M unit :=
  fs <- get_fs ;; fs' <- lift (op fs) ;; set_fs fs'.

(** [print(s)] and [print(s, end=e)]. *)
Definition print_end (s e : pystr) : M unit := emit (EPrint (s ++ e)).
Definition print (s : pystr) : M unit := print_end s NL.

Definition os_path_exists (p : pystr) : M bool :=
  fs <- get_fs ;; ret (path_exists fs p).
Definition os_path_isfile (p : pystr) : M bool :=
  fs <- get_fs ;; ret (isfile fs p).
Definition os_path_isdir (p : pystr) : M bool :=
  fs <- get_fs ;; ret (isdir fs p).
Definition os_listdir (p : pystr) : M (list pystr) :=
  fs <- get_fs ;; lift (listdir fs p).
Definition os_makedirs (p : pystr) : M unit :=
  emit (EMakedirs p) ;; fs_update (fun fs => makedirs fs p).
Definition os_remove (p : pystr) : M unit :=
  emit (ERemove p) ;; fs_update (fun fs => remove fs p).
Definition os_rmdir (p : pystr) : M unit :=
  emit (ERmdir p) ;; fs_update (fun fs => rmdir fs p).
Definition shutil_rmtree (p : pystr) : M unit :=
  emit (ERmtree p) ;; fs_update (fun fs => rmtree fs p).

(** [subprocess.run(argv, cwd=cwd)] answered by [outcome]: the working
    directory must be a directory for the child to start. *)
Definition subprocess_run (outcome : result CompletedProcess)
    (argv : list pystr) (cwd : option pystr) : M CompletedProcess :=
  emit (ESpawn argv cwd) ;;
  fs <- get_fs ;;
  match cwd with
  | Some d =>
    if isdir fs d then ret tt
    else raise (OSError (if path_exists fs d then py "ENOTDIR" else py "ENOENT") d)
  | None => ret tt
  end ;;
  result <- lift outcome ;;
  set_fs (effect result fs) ;;
  ret result.

(** [subprocess.run(argv, check=True)]. *)
Definition subprocess_run_check (outcome : result CompletedProcess)
    (argv : list pystr) : M CompletedProcess :=
  result <- subprocess_run outcome argv None ;;
  if (returncode result =? 0)%Z then ret result
  else raise (CalledProcessError argv (returncode result)).

(** [subprocess.Popen(argv, stdout=PIPE, stderr=STDOUT, ...)]. *)
Definition subprocess_Popen (outcome : result Process)
    (argv : list pystr) : M Process :=
  emit (ESpawn argv None) ;;
  process <- lift outcome ;;
  fs <- get_fs ;;
  set_fs (p_effect process fs) ;;
  ret process.

(* ===================================================================== *)
(** ** The script *)
(* ===================================================================== *)

(** The exit of [main] a run took.  Python's [main] returns [None] on
    every path; the value returned here names the path. *)
Inductive outcome :=
| Success
| InvalidInput
| DownloadFailed
| EmptyDownload
| ArchiveFailed
| UploadFailed
| Interrupted
| UnexpectedError.

Definition apt_update_cmd : list pystr :=
  [py "apt-get"; py "update"; py "-qq"].
Definition apt_install_cmd : list pystr :=
  [py "apt-get"; py "install"; py "-y"; py "-qq"; py "aria2"].

Definition MAGNET : pystr := py "magnet:".
Definition DOWNLOADS : pystr := py "/content/downloads".

(** Lines of the aria2c output that are never shown. *)
Definition noise : list pystr :=
  [py "---"; py "download result"; py "gid:"; py "status:active";
   py "uri:"; py "local:"; py "remote:"; py "[metadata]"].

(** Marks of a progress line. *)
Definition indicators : list pystr :=
  [py "DL:"; py "CN:"; py "%"; py "ETA:"; py "SIZE:"; py "SEED"].

Fixpoint for_each {A} (l : list A) (body : A -> M unit) : M unit :=
  match l with
  | [] => ret tt
  | x :: rest => body x ;; for_each rest body
  end.

Section Script.

Variable E : Env.

Definition input (prompt : pystr) : M pystr :=
  emit (EInput prompt) ;; lift (stdin_line E).

Definition requests_post (url file : pystr) : M Response :=
  emit (EPost url file) ;; lift (gofile E).

Definition install_dependencies : M unit :=
  enter F_install_dependencies ;;
  print (py "🔧 Installing dependencies...") ;;
  subprocess_run_check (apt_update E) apt_update_cmd ;;
  subprocess_run_check (apt_install E) apt_install_cmd ;;
  print (py "✅ Dependencies installed!").

(** [urllib.parse.unquote]: a string without a percent sign is returned
    as it is. *)
Definition unquote (string : pystr) : pystr :=
  if contains (py "%") string then unquote_escapes E string else string.

(** [urllib.parse.unquote_plus]. *)
Definition unquote_plus (string : pystr) : pystr :=
  let string := replace_char 0x2B 0x20 string in
  unquote string.

Definition get_torrent_info (magnet_link : pystr) : M pystr :=
  enter F_get_torrent_info ;;
  found <-
    try_except
      (if contains (py "dn=") magnet_link then
         match search_dn magnet_link with
         | Some group1 =>
           let name := unquote_plus group1 in
           ret (Some (sanitize_filename name))
         | None => ret None
         end
       else ret None)
      (except_all (ret None)) ;;
  match found with
  | Some name => ret name
  | None => ret (py "torrent_" ++ str_int (clock E))
  end.

(** One turn of the reading loop on a line that was read: the line is
    shown when it is a progress line that differs from the last one
    shown.  Returns the new [last_progress_line]. *)
Definition show_progress (output last_progress_line : pystr) : M pystr :=
  if nonempty output then
    let clean_output := strip output in
    if nonempty clean_output
       && negb (existsb (fun x => contains x (str_lower E clean_output)) noise)
    then
      if existsb (fun indicator => contains indicator clean_output) indicators
      then
        if negb (str_eqb clean_output last_progress_line) then
          print_end (CR ++ replicate 120 0x20 ++ CR) [] ;;
          print_end (py "📥 " ++ take 100 clean_output) [] ;;
          ret clean_output
        else ret last_progress_line
      else ret last_progress_line
    else ret last_progress_line
  else ret last_progress_line.

Fixpoint read_lines (outputs : list pystr) (last_progress_line : pystr)
    : M unit :=
  match outputs with
  | [] => ret tt
  | output :: rest =>
    last_progress_line <- show_progress output last_progress_line ;;
    read_lines rest last_progress_line
  end.

Definition download_torrent (magnet_link download_dir : pystr) : M bool :=
  enter F_download_torrent ;;
  os_makedirs download_dir ;;
  print (py "🔄 Starting download...") ;;
  print (py "📁 Download directory: " ++ download_dir) ;;
  let cmd :=
    [py "aria2c"; py "--seed-time=0"; py "--max-upload-limit=1K";
     py "--dir=" ++ download_dir; py "--summary-interval=1";
     py "--download-result=hide"; py "--console-log-level=warn";
     magnet_link] in
  try_except
    (process <- subprocess_Popen (aria2c E) cmd ;;
     read_lines (lines process) [] ;;
     return_code <- lift (ending process) ;;
     print [] ;;
     if (return_code =? 0)%Z then
       print (py "✅ Download completed successfully!") ;;
       ret true
     else
       print (py "❌ Download failed with return code: "
              ++ str_int return_code) ;;
       ret false)
    (except_Exception (fun e =>
       print (py "❌ Error during download: " ++ str_exn E e) ;;
       ret false)).

Definition create_zip (source_dir zip_name : pystr) : M (option pystr) :=
  enter F_create_zip ;;
  print (py "📦 Creating zip archive: " ++ zip_name) ;;
  try_except
    (let zip_path := py "/content/" ++ zip_name ++ py ".zip" in
     let cmd := [py "zip"; py "-r"; py "-m"; zip_path; py "."] in
     result <- subprocess_run (zip E) cmd (Some source_dir) ;;
     if (returncode result =? 0)%Z then
       print (py "✅ Zip created with files moved (space saved): "
              ++ zip_path) ;;
       try_except
         (os_rmdir source_dir ;;
          print (py "🗑️ Removed empty download directory"))
         (except_all (ret tt)) ;;
       ret (Some zip_path)
     else
       print (py "❌ Error creating zip: " ++ stderr result) ;;
       ret None)
    (except_Exception (fun e =>
       print (py "❌ Error creating zip: " ++ str_exn E e) ;;
       ret None)).

(** Returns the download page, or [JNull] for Python's [None]. *)
Definition upload_to_gofile (file_path : pystr) : M json :=
  enter F_upload_to_gofile ;;
  print (py "☁️ Uploading to GoFile...") ;;
  try_except
    (let upload_url := py "https://upload.gofile.io/uploadfile" in
     fs <- get_fs ;;
     lift (open_rb fs file_path) ;;
     print (py "📤 Uploading file...") ;;
     response <- requests_post upload_url file_path ;;
     if (status_code response =? 200)%Z then
       result <- lift (json_body response) ;;
       status <- lift (dict_get result (py "status") JNull) ;;
       if json_eq_str status (py "ok") then
         data <- lift (subscript result (py "data")) ;;
         download_page <- lift (subscript data (py "downloadPage")) ;;
         print (py "✅ Upload successful!") ;;
         ret download_page
       else
         error <- lift (dict_get result (py "error")
                                 (JStr (py "Unknown error"))) ;;
         print (py "❌ Upload failed: " ++ str_json E error) ;;
         ret JNull
     else
       print (py "❌ Upload failed with status code: "
              ++ str_int (status_code response)) ;;
       ret JNull)
    (except_Exception (fun e =>
       print (py "❌ Error uploading file: " ++ str_exn E e) ;;
       ret JNull)).

(** The body of the loop of [cleanup_files]. *)
Definition cleanup_path (file_path : pystr) : M unit :=
  try_except
    (there <- os_path_exists file_path ;;
     if there then
       is_file <- os_path_isfile file_path ;;
       if is_file then
         os_remove file_path ;;
         print (py "🗑️ Deleted file: " ++ file_path)
       else
         is_dir <- os_path_isdir file_path ;;
         if is_dir then
           shutil_rmtree file_path ;;
           print (py "🗑️ Deleted directory: " ++ file_path)
         else ret tt
     else ret tt)
    (except_Exception (fun e =>
       print (py "⚠️ Could not delete " ++ file_path ++ py ": "
              ++ str_exn E e))).

Definition cleanup_files (file_paths : list pystr) : M unit :=
  enter F_cleanup_files ;;
  print (py "🧹 Cleaning up files...") ;;
  for_each file_paths cleanup_path ;;
  try_except
    (let downloads_dir := py "/content/downloads" in
     there <- os_path_exists downloads_dir ;;
     if there then
       entries <- os_listdir downloads_dir ;;
       match entries with
       | [] =>
         os_rmdir downloads_dir ;;
         print (py "🗑️ Removed empty downloads directory")
       | _ => ret tt
       end
     else ret tt)
    (except_all (ret tt)).

Definition main : M outcome :=
  print (py "🚀 Torrent Download & Upload Bot") ;;
  print (replicate 50 0x3D) ;;
  install_dependencies ;;
  line <- input (py "📎 Enter magnet link: ") ;;
  let magnet_link := strip line in
  if negb (startswith MAGNET magnet_link) then
    print (py "❌ Invalid magnet link!") ;;
    ret InvalidInput
  else
    torrent_name <- get_torrent_info magnet_link ;;
    print (py "📝 Detected name: " ++ torrent_name) ;;
    let download_dir := DOWNLOADS in
    try_except
      (downloaded <- download_torrent magnet_link download_dir ;;
       if negb downloaded then ret DownloadFailed else
       there <- os_path_exists download_dir ;;
       entries <- (if there then os_listdir download_dir else ret []) ;;
       match entries with
       | [] =>
         print (py "❌ No files were downloaded!") ;;
         ret EmptyDownload
       | _ =>
         zip_path <- create_zip download_dir torrent_name ;;
         match zip_path with
         | None | Some [] => ret ArchiveFailed
         | Some zip_path =>
           download_page <- upload_to_gofile zip_path ;;
           (if truthy download_page then
              print (NL ++ replicate 50 0x3D) ;;
              print (py "🎉 PROCESS COMPLETED SUCCESSFULLY!") ;;
              print (py "📁 File: " ++ torrent_name ++ py ".zip") ;;
              print (py "🔗 Download URL: " ++ str_json E download_page) ;;
              print (replicate 50 0x3D)
            else ret tt) ;;
           cleanup_files [zip_path; download_dir] ;;
           ret (if truthy download_page then Success else UploadFailed)
         end
       end)
      (fun e =>
         match e with
         | KeyboardInterrupt =>
           Some (print (NL ++ py "❌ Process interrupted by user") ;;
                 cleanup_files [download_dir] ;;
                 ret Interrupted)
         | _ =>
           Some (print (py "❌ Unexpected error: " ++ str_exn E e) ;;
                 cleanup_files [download_dir] ;;
                 ret UnexpectedError)
         end).

End Script.

(** The label [get_torrent_info] computes for a magnet link: the function
    only reads the clock, so its value does not depend on the world. *)
Definition torrent_name (E : Env) (magnet_link : pystr) : pystr :=
  match fst (get_torrent_info E magnet_link (initial ∅)) with
  | Ok name => name
  | Raise _ => []
  end.

(** The path [create_zip] gives to the archive of a label. *)
Definition archive_path (zip_name : pystr) : pystr :=
  py "/content/" ++ zip_name ++ py ".zip".

(** What a run of [zip -r -m zip_path .] in [source_dir] that exits with
    status 0 has done, as the script expects of the utility: the archive
    is a regular file at its output path, nothing is left below the
    working directory, and the working directory has not become a file. *)
Definition zip_moved (fs : FS) (run : CompletedProcess)
    (source_dir zip_path : pystr) : Prop :=
  returncode run = 0%Z ->
  isfile (effect run fs) zip_path = true
  /\ below (effect run fs) source_dir = []
  /\ isfile (effect run fs) source_dir = false.

(** A response the uploader does not accept: a status other than 200, or
    a body that cannot be parsed, is not a [dict], or whose [status] is
    not the string [ok]. *)
Definition status_ok (body : json) : bool :=
  match dict_get body (py "status") JNull with
  | Ok status => json_eq_str status (py "ok")
  | Raise _ => false
  end.

Definition rejected (response : Response) : Prop :=
  status_code response <> 200%Z
  \/ match json_body response with
     | Ok body => status_ok body = false
     | Raise e => is_Exception e = true
     end.

(* ===================================================================== *)
(** ** Sample environments *)
(* ===================================================================== *)

Module Samples.

Definition nothing_done : CompletedProcess :=
  {| returncode := 0; stderr := []; effect := fun fs => fs |}.

(** An environment given by what the user types and by the answers of
    aria2c, zip and the upload host; both apt-get runs succeed and the
    library functions are the simplest ones. *)
Definition env (line : result pystr) (download : result Process)
    (archive : result CompletedProcess) (upload : result Response) : Env :=
  {| unquote_escapes := fun s => s;
     str_lower := fun s => s;
     str_json := fun v => match v with JStr s => s | _ => [] end;
     str_exn := fun _ => py "error";
     apt_update := Ok nothing_done;
     apt_install := Ok nothing_done;
     stdin_line := line;
     clock := 1700000000%Z;
     aria2c := download;
     zip := archive;
     gofile := upload |}.

(** Nothing outside answers: every external call is interrupted. *)
Definition offline : Env :=
  env (Raise KeyboardInterrupt) (Raise KeyboardInterrupt)
      (Raise KeyboardInterrupt) (Raise KeyboardInterrupt).

(** The model of a successful [zip -r -m out .] run in [cwd]: everything
    below [cwd] is gone and [out] is a regular file. *)
Definition zip_move (out cwd : pystr) (fs : FS) : FS :=
  <[out := File]> (filter (fun kv => under cwd kv.1 = false) fs).

(** aria2c writes one file into the download directory and exits with
    [code]. *)
Definition download_exits (code : Z) : result Process :=
  Ok {| lines := [py "[#1 10% DL:1MiB ETA:3s]" ++ NL; []; py "gid: x" ++ NL];
        ending := Ok code;
        p_effect := fun fs =>
          <[py "/content/downloads/My Cool File.bin" := File]> fs |}.

Definition zip_succeeds (out : pystr) : result CompletedProcess :=
  Ok {| returncode := 0; stderr := [];
        effect := zip_move out (py "/content/downloads") |}.

Definition upload_accepted : result Response :=
  Ok {| status_code := 200;
        json_body := Ok (JObj [(py "status", JStr (py "ok"));
                               (py "data", JObj [(py "downloadPage",
                                  JStr (py "https://gofile.io/d/abc"))])]) |}.

Definition upload_refused : result Response :=
  Ok {| status_code := 500; json_body := Raise (OtherException (py "not JSON")) |}.

(** The user types something that is not a magnet link. *)
Definition not_a_magnet : Env :=
  env (Ok (py "not-a-magnet")) (Raise KeyboardInterrupt)
      (Raise KeyboardInterrupt) (Raise KeyboardInterrupt).

Definition cool_magnet : pystr := py "magnet:?xt=urn:btih:ABC&dn=My+Cool+File".

(** A run in which everything succeeds. *)
Definition happy : Env :=
  env (Ok cool_magnet) (download_exits 0)
      (zip_succeeds (py "/content/My_Cool_File.zip")) upload_accepted.

(** A run whose download exits with status 1. *)
Definition download_fails : Env :=
  env (Ok cool_magnet) (download_exits 1)
      (zip_succeeds (py "/content/My_Cool_File.zip")) upload_accepted.

(** A run whose upload is refused. *)
Definition upload_fails : Env :=
  env (Ok cool_magnet) (download_exits 0)
      (zip_succeeds (py "/content/My_Cool_File.zip")) upload_refused.

(** A filesystem after a download. *)
Definition downloaded : FS :=
  <[py "/content/downloads/My Cool File.bin" := File]>
    (<[py "/content/downloads" := Dir]> (<[py "/content" := Dir]> ∅)).

End Samples.

(** Both apt-get runs of [install_dependencies] complete with status 0,
    so that the run reaches the prompt. *)
Definition apt_succeeds (E : Env) : Prop :=
  exists u i,
    apt_update E = Ok u /\ returncode u = 0%Z
    /\ apt_install E = Ok i /\ returncode i = 0%Z.

(** A computation that enters no function of the script: whatever it
    logs, it logs no [ECall]. *)
Definition quiet {A} (m : M A) : Prop :=
  forall w, exists t,
    w_log (snd (m w)) = t ++ w_log w /\ forall f, ~ In (ECall f) t.

(** A computation that logs the call of [f] first and no other call:
    each function of the script does, for its own name. *)
Definition enters {X} (f : fn) (m : M X) : Prop :=
  forall w, exists t,
    w_log (snd (m w)) = t ++ ECall f :: w_log w /\ forall g, ~ In (ECall g) t.

(** Function [f] was entered during a run with events [t]. *)
Definition called (f : fn) (t : list event) : Prop := In (ECall f) t.

(** [fs'] has no path that [fs] did not have. *)
Definition shrinks (fs fs' : FS) : Prop :=
  forall k, fs !! k = None -> fs' !! k = None.

(** The message [download_torrent] prints last when its subprocess has
    exited with [return_code]. *)
Definition verdict (return_code : Z) : pystr :=
  if (return_code =? 0)%Z then py "✅ Download completed successfully!"
  else py "❌ Download failed with return code: " ++ str_int return_code.

(** What a run does before any download: it prints, prompts, enters
    [install_dependencies] and starts the two apt-get commands. *)
Definition preliminary (e : event) : Prop :=
  match e with
  | ECall f => f = F_install_dependencies
  | ESpawn argv cwd =>
    cwd = None /\ (argv = apt_update_cmd \/ argv = apt_install_cmd)
  | EPrint _ | EInput _ => True
  | _ => False
  end.

(** A decimal digit. *)
Definition is_digit (c : N) : Prop := 0x30 <= c <= 0x39.

(** A character the sanitizer leaves alone. *)
Definition plain (c : N) : Prop := illegal c = false /\ isspace c = false.

(** A character that goes through decoding and sanitizing unchanged: a
    plain one that is not an ampersand, a plus or a percent sign. *)
Definition verbatim (c : N) : Prop :=
  plain c /\ c <> AMP /\ c <> 0x2B /\ c <> 0x25.

(** What one turn of the loop of [cleanup_files] leaves of a filesystem:
    a regular file is removed, a directory is removed with everything
    below it, a missing path changes nothing. *)
Definition cleared (p : pystr) (fs : FS) : FS :=
  match fs !! p with
  | Some File => delete p fs
  | Some Dir => filter (fun kv => kv.1 <> p /\ under p kv.1 = false) fs
  | None => fs
  end.

(** What the last step of [cleanup_files] leaves: the downloads root is
    removed when it is an empty directory. *)
Definition swept (fs : FS) : FS :=
  match fs !! DOWNLOADS with
  | Some Dir =>
    match below fs DOWNLOADS with
    | [] => delete DOWNLOADS fs
    | _ => fs
    end
  | _ => fs
  end.

(** The functions of the script entered during a run with events [t], in
    order. *)
Fixpoint calls_of (t : list event) : list fn :=
  match t with
  | [] => []
  | ECall f :: t' => f :: calls_of t'
  | _ :: t' => calls_of t'
  end.

(* ===================================================================== *)
(** ** Deletions the operating system refuses *)
(* ===================================================================== *)

(** [remove], [rmtree] and [rmdir] above delete whatever is there.  A
    real system can refuse a deletion (permissions, a busy or read-only
    filesystem, an entry that cannot be unlinked).  [Refusals] holds its
    answers to the three deletions of [cleanup_files], each for the
    filesystem at the time of the call: [None] lets the deletion through,
    otherwise the call raises an [OSError]. *)

(** A [shutil.rmtree] that fails: the error, the entry it stopped at, and
    which of the entries below the directory are still there (the order
    in which [rmtree] visits them is not fixed). *)
Record RmtreeFailure := {
  rt_errno : pystr;
  rt_entry : pystr;
  rt_survives : pystr -> bool }.

Record Refusals := {
  refuse_remove : FS -> pystr -> option pystr;
  refuse_rmtree : FS -> pystr -> option RmtreeFailure;
  refuse_rmdir : FS -> pystr -> option pystr }.

(** A system that refuses nothing. *)
Definition no_refusals : Refusals :=
  {| refuse_remove := fun _ _ => None;
     refuse_rmtree := fun _ _ => None;
     refuse_rmdir := fun _ _ => None |}.

(** [cleanup_files] over deletions that can be refused. *)
Module Fallible.

Section Deletions.

Variable R : Refusals.
Variable E : Env.

(** [os.remove(p)]: nothing changes when it is refused. *)
Definition os_remove (p : pystr) : M unit :=
  emit (ERemove p) ;;
  fs_update (fun fs =>
    match remove fs p with
    | Ok fs' =>
      match refuse_remove R fs p with
      | Some errno => Raise (OSError errno p)
      | None => Ok fs'
      end
    | Raise e => Raise e
    end).

(** [os.rmdir(p)]: nothing changes when it is refused. *)
Definition os_rmdir (p : pystr) : M unit :=
  emit (ERmdir p) ;;
  fs_update (fun fs =>
    match rmdir fs p with
    | Ok fs' =>
      match refuse_rmdir R fs p with
      | Some errno => Raise (OSError errno p)
      | None => Ok fs'
      end
    | Raise e => Raise e
    end).

(** [shutil.rmtree(p)]: when it fails part of the way, the directory
    itself and the surviving entries below it are left, and everything
    that is not below [p] is as before. *)
Definition shutil_rmtree (p : pystr) : M unit :=
  emit (ERmtree p) ;;
  fs <- get_fs ;;
  fs' <- lift (rmtree fs p) ;;
  match refuse_rmtree R fs p with
  | Some failure =>
    set_fs (filter (fun kv => under p kv.1 = false
                              \/ rt_survives failure kv.1 = true) fs) ;;
    raise (OSError (rt_errno failure) (rt_entry failure))
  | None => set_fs fs'
  end.

Definition cleanup_path (file_path : pystr) : M unit :=
  try_except
    (there <- os_path_exists file_path ;;
     if there then
       is_file <- os_path_isfile file_path ;;
       if is_file then
         os_remove file_path ;;
         print (py "🗑️ Deleted file: " ++ file_path)
       else
         is_dir <- os_path_isdir file_path ;;
         if is_dir then
           shutil_rmtree file_path ;;
           print (py "🗑️ Deleted directory: " ++ file_path)
         else ret tt
     else ret tt)
    (except_Exception (fun e =>
       print (py "⚠️ Could not delete " ++ file_path ++ py ": "
              ++ str_exn E e))).

Definition cleanup_files (file_paths : list pystr) : M unit :=
  enter F_cleanup_files ;;
  print (py "🧹 Cleaning up files...") ;;
  for_each file_paths cleanup_path ;;
  try_except
    (let downloads_dir := py "/content/downloads" in
     there <- os_path_exists downloads_dir ;;
     if there then
       entries <- os_listdir downloads_dir ;;
       match entries with
       | [] =>
         os_rmdir downloads_dir ;;
         print (py "🗑️ Removed empty downloads directory")
       | _ => ret tt
       end
     else ret tt)
    (except_all (ret tt)).

End Deletions.

End Fallible.


Module MoreSamples.

(** A magnet link typed with a space in front of it. *)
Definition padded_magnet : pystr := py " magnet:?xt=urn:btih:ABC".

(** The user types the padded link; the download then exits with
    status 1. *)
Definition padded : Env :=
  Samples.env (Ok padded_magnet) (Samples.download_exits 1)
    (Raise KeyboardInterrupt) (Raise KeyboardInterrupt).




End MoreSamples.

(* ===================================================================== *)
(** * Properties *)
(* ===================================================================== *)

(** ** The sanitizer *)

Section Sanitizer.

Lemma plain_underscore : plain UNDERSCORE.
Proof. split; reflexivity. Qed.

Lemma sub_illegal_legal s : Forall (fun c => illegal c = false) (sub_illegal s).
Proof.
  induction s as [|c s IH]; simpl; constructor; auto.
  destruct (illegal c) eqn:Hc; [reflexivity | exact Hc].
Qed.

Lemma sub_spaces_from_plain b s :
  Forall (fun c => illegal c = false) s -> Forall plain (sub_spaces_from b s).
Proof.
  intros H; revert b; induction H as [|c s Hc _ IH]; intros b; simpl.
  - constructor.
  - destruct (isspace c) eqn:Hs.
    + destruct b; [apply IH | constructor; [apply plain_underscore | apply IH]].
    + constructor; [split; assumption | apply IH].
Qed.

Lemma Forall_take_plain (P : N -> Prop) n (s : pystr) :
  Forall P s -> Forall P (take n s).
Proof.
  intros H; revert n; induction H; intros [|n]; simpl; constructor; auto.
Qed.

(** The output of the sanitizer only has plain characters... *)
Lemma sanitize_plain s : Forall plain (sanitize_filename s).
Proof.
  unfold sanitize_filename, sub_spaces.
  apply Forall_take_plain, sub_spaces_from_plain, sub_illegal_legal.
Qed.

(** ... and at most 100 of them. *)
Lemma sanitize_length s : (length (sanitize_filename s) <= 100)%nat.
Proof. unfold sanitize_filename. rewrite length_take. lia. Qed.

Lemma sub_illegal_plain s : Forall plain s -> sub_illegal s = s.
Proof.
  induction 1 as [|c s [Hc _] _ IH]; simpl; [reflexivity|].
  rewrite Hc, IH. reflexivity.
Qed.

Lemma sub_spaces_from_id b s : Forall plain s -> sub_spaces_from b s = s.
Proof.
  intros H; revert b; induction H as [|c s [_ Hc] _ IH]; intros b; simpl;
    [reflexivity|].
  rewrite Hc, IH. reflexivity.
Qed.

Lemma sanitize_fixed s :
  Forall plain s -> (length s <= 100)%nat -> sanitize_filename s = s.
Proof.
  intros Hp Hl. unfold sanitize_filename, sub_spaces.
  rewrite (sub_illegal_plain s Hp), (sub_spaces_from_id false s Hp).
  apply take_ge. exact Hl.
Qed.

End Sanitizer.

(** C10: the sanitizer is idempotent; sanitizing a sanitized name changes
    nothing. *)
Theorem sanitize_filename_idempotent (s : pystr) :
  sanitize_filename (sanitize_filename s) = sanitize_filename s.
Proof.
  apply sanitize_fixed; [apply sanitize_plain | apply sanitize_length].
Qed.

(** ** Running the monad *)

(** Symbolic execution of the primitive operations. *)
Ltac exec :=
  cbv beta iota zeta delta [bind ret raise lift emit enter get_fs set_fs fs_update try_except
       except_all except_Exception is_Exception print print_end input
       requests_post os_path_exists os_path_isfile os_path_isdir os_listdir
       os_makedirs os_remove os_rmdir shutil_rmtree
       negb fst snd w_fs w_log].

Ltac exec_in H :=
  cbv beta iota zeta delta [bind ret raise lift emit enter get_fs set_fs fs_update try_except
       except_all except_Exception is_Exception print print_end input
       requests_post os_path_exists os_path_isfile os_path_isdir os_listdir
       os_makedirs os_remove os_rmdir shutil_rmtree
       negb fst snd w_fs w_log] in H.

(** ** The name extractor *)

Section NameExtractor.

Variable E : Env.

(** [get_torrent_info] always returns, leaves the filesystem alone and
    logs its own call only. *)
Lemma get_torrent_info_run m w :
  get_torrent_info E m w =
  (Ok (torrent_name E m), mkWorld (w_fs w) (ECall F_get_torrent_info :: w_log w)).
Proof.
  unfold torrent_name, get_torrent_info. exec.
  destruct (contains (py "dn=") m); [destruct (search_dn m)|]; reflexivity.
Qed.

Lemma torrent_name_dn m g :
  contains (py "dn=") m = true -> search_dn m = Some g ->
  torrent_name E m = sanitize_filename (unquote_plus E g).
Proof.
  intros Hc Hs. unfold torrent_name, get_torrent_info. exec.
  rewrite Hc, Hs. reflexivity.
Qed.

Lemma torrent_name_fallback m :
  contains (py "dn=") m = false ->
  torrent_name E m = py "torrent_" ++ str_int (clock E).
Proof.
  intros Hc. unfold torrent_name, get_torrent_info. exec.
  rewrite Hc. reflexivity.
Qed.

Lemma startswith_app p s : startswith p (p ++ s) = true.
Proof.
  induction p as [|x p IH]; simpl; [reflexivity|].
  rewrite N.eqb_refl. exact IH.
Qed.

Lemma contains_unfold sub s :
  contains sub s =
  startswith sub s || match s with [] => false | _ :: t => contains sub t end.
Proof. destruct s; reflexivity. Qed.

Lemma contains_app pre sub s : contains sub (pre ++ sub ++ s) = true.
Proof.
  induction pre as [|x pre IH].
  - rewrite contains_unfold. cbn [app]. rewrite startswith_app. reflexivity.
  - rewrite contains_unfold. cbn [app]. rewrite IH. apply orb_true_r.
Qed.

(** The search finds a [dn=] that is followed by a character other
    than the ampersand. *)
Lemma search_dn_finds pre c tail :
  c <> AMP -> exists g, search_dn (pre ++ py "dn=" ++ c :: tail) = Some g.
Proof.
  intros Hc. induction pre as [|x pre [g IH]].
  - exists (c :: span (fun ch => negb (ch =? AMP)) tail).
    change ([] ++ py "dn=" ++ c :: tail) with (100 :: 110 :: 61 :: c :: tail).
    apply N.eqb_neq in Hc.
    destruct tail; cbn [search_dn]; unfold match_dn_here;
      change (py "dn=") with [100; 110; 61];
      cbn [startswith drop span N.eqb Pos.eqb andb negb]; rewrite Hc;
      reflexivity.
  - change ((x :: pre) ++ py "dn=" ++ c :: tail)
      with (x :: (pre ++ py "dn=" ++ c :: tail)).
    cbn [search_dn].
    destruct (match_dn_here (x :: pre ++ py "dn=" ++ c :: tail)) as [g'|];
      [exists g' | exists g]; [reflexivity | exact IH].
Qed.

End NameExtractor.

(** C5: when the magnet string has a [dn=] with a value (a character
    other than the ampersand follows it), whatever that value includes,
    the label comes from the sanitizer, holds none of the characters that
    are illegal in filenames and is at most 100 characters long. *)
Theorem name_extractor_output_is_safe
    (E : Env) (pre tail : pystr) (c : N) (w : World) :
  c <> AMP ->
  exists g,
    search_dn (pre ++ py "dn=" ++ c :: tail) = Some g
    /\ fst (get_torrent_info E (pre ++ py "dn=" ++ c :: tail) w)
       = Ok (sanitize_filename (unquote_plus E g))
    /\ Forall (fun ch => illegal ch = false)
              (sanitize_filename (unquote_plus E g))
    /\ (length (sanitize_filename (unquote_plus E g)) <= 100)%nat.
Proof.
  intros Hc. destruct (search_dn_finds pre c tail Hc) as [g Hg].
  exists g. split; [exact Hg|]. split; [|split].
  - rewrite get_torrent_info_run. cbn [fst]. f_equal.
    apply torrent_name_dn; [apply contains_app | exact Hg].
  - eapply Forall_impl; [apply sanitize_plain|]. intros ch [H _]. exact H.
  - apply sanitize_length.
Qed.

Lemma name_extractor_output_is_safe_witness :
  0x61 <> AMP /\
  exists g,
    search_dn (py "magnet:?xt=urn:btih:ABC&" ++ py "dn=" ++ 0x61 :: py "/b:c*&tr=x")
    = Some g
    /\ fst (get_torrent_info Samples.offline
              (py "magnet:?xt=urn:btih:ABC&" ++ py "dn=" ++ 0x61 :: py "/b:c*&tr=x")
              (initial ∅))
       = Ok (sanitize_filename (unquote_plus Samples.offline g))
    /\ Forall (fun ch => illegal ch = false)
              (sanitize_filename (unquote_plus Samples.offline g))
    /\ (length (sanitize_filename (unquote_plus Samples.offline g)) <= 100)%nat.
Proof.
  split; [discriminate|].
  apply name_extractor_output_is_safe. discriminate.
Defined.

(** ** Decimal numerals *)

Section Decimal.

Lemma utf8_ascii b t : b < 0x80 -> utf8 (b :: t) = b :: utf8 t.
Proof. intros H. cbn [utf8]. apply N.ltb_lt in H. rewrite H. reflexivity. Qed.

Lemma string_of_uint_digits (d : Decimal.uint) :
  Forall is_digit
    (utf8 (map N_of_ascii (list_ascii_of_string (NilEmpty.string_of_uint d)))).
Proof.
  induction d; cbn [NilEmpty.string_of_uint list_ascii_of_string map];
    [constructor | ..];
    (rewrite utf8_ascii by (vm_compute; reflexivity));
    (constructor; [vm_compute; split; discriminate | exact IHd]).
Qed.

(** [str(n)] of a non-negative integer is a non-empty run of digits. *)
Lemma str_int_digits (n : Z) :
  (0 <= n)%Z -> Forall is_digit (str_int n) /\ str_int n <> [].
Proof.
  intros Hn.
  destruct n as [|p|p]; [| | lia].
  { change (str_int 0) with [0x30]. split; [|discriminate].
    repeat constructor; unfold is_digit; lia. }
  unfold str_int, py.
  cbn [Z.to_int NilZero.string_of_int NilZero.string_of_uint].
  pose proof (string_of_uint_digits (Pos.to_uint p)) as H.
  destruct (Pos.to_uint p) eqn:Hp;
    try (split; [exact H | cbn; discriminate]).
  exfalso. pose proof (DecimalPos.Unsigned.to_uint_nonnil p) as Hnn. congruence.
Qed.

End Decimal.

(** C8: a magnet string in which [dn=] does not occur gets the fallback
    label: the call returns (it does not raise) [torrent_] followed by the
    decimal numeral of the clock's seconds. *)
Theorem name_extractor_fallback (E : Env) (m : pystr) (w : World) :
  contains (py "dn=") m = false ->
  get_torrent_info E m w
  = (Ok (py "torrent_" ++ str_int (clock E)),
     mkWorld (w_fs w) (ECall F_get_torrent_info :: w_log w))
  /\ ((0 <= clock E)%Z ->
      Forall is_digit (str_int (clock E)) /\ str_int (clock E) <> []).
Proof.
  intros Hc. split.
  - rewrite get_torrent_info_run, (torrent_name_fallback E m Hc). reflexivity.
  - apply str_int_digits.
Qed.

Lemma name_extractor_fallback_witness :
  contains (py "dn=") (py "magnet:?xt=urn:btih:ABC") = false
  /\ get_torrent_info Samples.offline (py "magnet:?xt=urn:btih:ABC") (initial ∅)
     = (Ok (py "torrent_1700000000"),
        mkWorld ∅ [ECall F_get_torrent_info]).
Proof.
  split; [reflexivity|].
  apply (name_extractor_fallback Samples.offline
           (py "magnet:?xt=urn:btih:ABC") (initial ∅)).
  reflexivity.
Defined.

(** C9: the label of [magnet:?xt=urn:btih:ABC&dn=My+Cool+File] is
    [My_Cool_File], whatever the environment. *)
Theorem name_extractor_my_cool_file (E : Env) (w : World) :
  get_torrent_info E (py "magnet:?xt=urn:btih:ABC&dn=My+Cool+File") w
  = (Ok (py "My_Cool_File"),
     mkWorld (w_fs w) (ECall F_get_torrent_info :: w_log w)).
Proof.
  rewrite get_torrent_info_run. reflexivity.
Qed.

(** ** Which computations enter a function *)

Section Quiet.

Context {A B : Type}.

Lemma quiet_ret (a : A) : quiet (ret a).
Proof. intros w. exists []. split; [reflexivity | intros f []]. Qed.

Lemma quiet_raise (e : exn) : quiet (@raise A e).
Proof. intros w. exists []. split; [reflexivity | intros f []]. Qed.

Lemma quiet_lift (r : result A) : quiet (lift r).
Proof. intros w. exists []. split; [reflexivity | intros f []]. Qed.

Lemma quiet_bind (m : M A) (k : A -> M B) :
  quiet m -> (forall a, quiet (k a)) -> quiet (bind m k).
Proof.
  intros Hm Hk w. destruct (Hm w) as (t & Ht & Hq). unfold bind.
  destruct (m w) as [[a|e] w1]; cbn [snd] in *.
  - destruct (Hk a w1) as (t' & Ht' & Hq'). exists (t' ++ t). split.
    + rewrite Ht', Ht. apply app_assoc.
    + intros f Hin. apply in_app_or in Hin as [Hin|Hin];
        [exact (Hq' f Hin) | exact (Hq f Hin)].
  - exists t. split; assumption.
Qed.

Lemma quiet_try (body : M A) (handler : exn -> option (M A)) :
  quiet body -> (forall e h, handler e = Some h -> quiet h) ->
  quiet (try_except body handler).
Proof.
  intros Hb Hh w. destruct (Hb w) as (t & Ht & Hq). unfold try_except.
  destruct (body w) as [[a|e] w1]; cbn [snd] in *.
  - exists t. split; assumption.
  - destruct (handler e) as [h|] eqn:He; cbn [snd].
    + destruct (Hh e h He w1) as (t' & Ht' & Hq'). exists (t' ++ t). split.
      * rewrite Ht', Ht. apply app_assoc.
      * intros f Hin. apply in_app_or in Hin as [Hin|Hin];
          [exact (Hq' f Hin) | exact (Hq f Hin)].
    + exists t. split; assumption.
Qed.

Lemma quiet_try_Exception (body : M A) (h : exn -> M A) :
  quiet body -> (forall e, quiet (h e)) ->
  quiet (try_except body (except_Exception h)).
Proof.
  intros Hb Hh. apply quiet_try; [exact Hb|]. intros e h' He.
  unfold except_Exception in He. destruct (is_Exception e); [|discriminate].
  injection He as <-. apply Hh.
Qed.

Lemma quiet_try_all (body h : M A) :
  quiet body -> quiet h -> quiet (try_except body (except_all h)).
Proof.
  intros Hb Hh. apply quiet_try; [exact Hb|]. intros e h' He.
  injection He as <-. exact Hh.
Qed.

End Quiet.

Lemma quiet_emit (e : event) :
  (forall f, e <> ECall f) -> quiet (emit e).
Proof.
  intros He w. exists [e]. split; [reflexivity|].
  intros f [Hin|[]]. exact (He f Hin).
Qed.

Lemma quiet_get_fs : quiet get_fs.
Proof. intros w. exists []. split; [reflexivity | intros f []]. Qed.

Lemma quiet_set_fs fs : quiet (set_fs fs).
Proof. intros w. exists []. split; [reflexivity | intros f []]. Qed.

(** Decomposes a goal [quiet m] along the structure of [m]. *)
Ltac quiet_step :=
  lazymatch goal with
  | |- quiet (bind _ _) => apply quiet_bind; [| intros ?]
  | |- quiet (try_except _ (except_Exception _)) =>
    apply quiet_try_Exception; [| intros ?]
  | |- quiet (try_except _ (except_all _)) => apply quiet_try_all
  | |- quiet (ret _) => apply quiet_ret
  | |- quiet (raise _) => apply quiet_raise
  | |- quiet (lift _) => apply quiet_lift
  | |- quiet get_fs => apply quiet_get_fs
  | |- quiet (set_fs _) => apply quiet_set_fs
  | |- quiet (emit _) => apply quiet_emit; intros ?; discriminate
  | |- quiet (if ?b then _ else _) => destruct b
  | |- quiet (match ?x with _ => _ end) => destruct x
  end.

Ltac quiet_tac :=
  unfold print, print_end, input, requests_post, os_path_exists,
    os_path_isfile, os_path_isdir, os_listdir, os_makedirs, os_remove,
    os_rmdir, shutil_rmtree, fs_update, subprocess_run_check, subprocess_run,
    subprocess_Popen;
  repeat quiet_step.

Section QuietScript.

Variable E : Env.

Lemma quiet_show_progress output last : quiet (show_progress E output last).
Proof. unfold show_progress. quiet_tac. Qed.

Lemma quiet_read_lines outputs last : quiet (read_lines E outputs last).
Proof.
  revert last. induction outputs as [|o rest IH]; intros last;
    cbn [read_lines]; [apply quiet_ret|].
  apply quiet_bind; [apply quiet_show_progress | intros l; apply IH].
Qed.

Lemma quiet_cleanup_path p : quiet (cleanup_path E p).
Proof. unfold cleanup_path. quiet_tac. Qed.

Lemma quiet_for_each {X} (l : list X) body :
  (forall x, quiet (body x)) -> quiet (for_each l body).
Proof.
  intros H. induction l as [|x l IH]; cbn [for_each]; [apply quiet_ret|].
  apply quiet_bind; [apply H | intros _; exact IH].
Qed.

Lemma enters_intro {X} f (body : M X) :
  quiet body -> enters f (enter f ;; body).
Proof.
  intros Hq w. unfold enter. exec.
  destruct (Hq (mkWorld (w_fs w) (ECall f :: w_log w))) as (t & Ht & Hn).
  exists t. split; assumption.
Qed.

Lemma enters_install_dependencies : enters F_install_dependencies (install_dependencies E).
Proof. apply enters_intro. quiet_tac. Qed.

Lemma enters_download_torrent m d :
  enters F_download_torrent (download_torrent E m d).
Proof.
  apply enters_intro. cbv zeta. quiet_tac. apply quiet_read_lines.
Qed.

Lemma enters_create_zip s n : enters F_create_zip (create_zip E s n).
Proof. apply enters_intro. cbv zeta. quiet_tac. Qed.

Lemma enters_upload_to_gofile p :
  enters F_upload_to_gofile (upload_to_gofile E p).
Proof. apply enters_intro. cbv zeta. quiet_tac. Qed.

Lemma enters_cleanup_files l : enters F_cleanup_files (cleanup_files E l).
Proof.
  apply enters_intro. cbv zeta. quiet_tac.
  apply quiet_for_each, quiet_cleanup_path.
Qed.

End QuietScript.

(** ** Cleanup *)

Section Cleanup.

Variable E : Env.

Lemma shrinks_refl fs : shrinks fs fs.
Proof. intros k H. exact H. Qed.

Lemma shrinks_trans fs1 fs2 fs3 :
  shrinks fs1 fs2 -> shrinks fs2 fs3 -> shrinks fs1 fs3.
Proof. intros H1 H2 k H. apply H2, H1, H. Qed.

Lemma shrinks_delete (fs : FS) p : shrinks fs (delete p fs).
Proof.
  intros k H. destruct (decide (p = k)) as [->|Hne].
  - apply lookup_delete_eq.
  - rewrite lookup_delete_ne by exact Hne. exact H.
Qed.

Lemma shrinks_filter (fs : FS) (P : list N * node -> Prop)
    `{!forall x, Decision (P x)} :
  shrinks fs (filter P fs).
Proof.
  intros k Hk. apply map_lookup_filter_None. left. exact Hk.
Qed.

Lemma rmdir_shrinks fs d fs' : rmdir fs d = Ok fs' -> shrinks fs fs'.
Proof.
  unfold rmdir. destruct (fs !! d) as [[|]|]; try discriminate.
  destruct (below fs d); [|discriminate].
  intros [= <-]. apply shrinks_delete.
Qed.

(** One turn of the loop: the path is gone afterwards, nothing new
    appears, and the turn does not raise. *)
Lemma cleanup_path_run p w :
  exists t fs',
    cleanup_path E p w = (Ok tt, mkWorld fs' (t ++ w_log w))
    /\ fs' !! p = None /\ shrinks (w_fs w) fs'.
Proof.
  destruct w as [fs lg].
  destruct (fs !! p) as [[|]|] eqn:Hp;
    unfold cleanup_path, os_path_exists, os_path_isfile, os_path_isdir,
      os_remove, shutil_rmtree, fs_update, get_fs, path_exists, isfile,
      isdir, remove, rmtree;
    exec; rewrite !Hp; exec.
  - exists [EPrint ((py "🗑️ Deleted file: " ++ p) ++ NL); ERemove p],
           (delete p fs).
    split; [reflexivity|]. split; [apply lookup_delete_eq | apply shrinks_delete].
  - exists [EPrint ((py "🗑️ Deleted directory: " ++ p) ++ NL); ERmtree p],
           (filter (fun kv => kv.1 <> p /\ under p kv.1 = false) fs).
    split; [reflexivity|]. split; [|apply shrinks_filter].
    apply map_lookup_filter_None. right. intros x _ [Hne _]. apply Hne.
    reflexivity.
  - exists [], fs. split; [reflexivity|]. split; [exact Hp | apply shrinks_refl].
Qed.

Lemma cleanup_loop_run l w :
  exists t fs',
    for_each l (cleanup_path E) w = (Ok tt, mkWorld fs' (t ++ w_log w))
    /\ (forall p, In p l -> fs' !! p = None) /\ shrinks (w_fs w) fs'.
Proof.
  revert w. induction l as [|p l IH]; intros w.
  - exists [], (w_fs w). destruct w. split; [reflexivity|].
    split; [intros p [] | apply shrinks_refl].
  - destruct (cleanup_path_run p w) as (t1 & fs1 & H1 & Hp & Hs1).
    destruct (IH (mkWorld fs1 (t1 ++ w_log w))) as (t2 & fs2 & H2 & Hl & Hs2).
    exists (t2 ++ t1), fs2. cbn [for_each]. unfold bind at 1. rewrite H1, H2.
    cbn [w_fs w_log] in *. rewrite app_assoc. split; [reflexivity|]. split.
    + intros q [<-|Hq]; [apply Hs2, Hp | apply Hl, Hq].
    + eapply shrinks_trans; eassumption.
Qed.

(** [cleanup_files] never raises; afterwards none of its arguments
    exists, and nothing exists that did not before. *)
Lemma cleanup_files_run l w :
  exists w',
    cleanup_files E l w = (Ok tt, w')
    /\ (forall p, In p l -> w_fs w' !! p = None)
    /\ shrinks (w_fs w) (w_fs w').
Proof.
  destruct w as [fs lg]. unfold cleanup_files. exec.
  match goal with
  | |- context [for_each l (cleanup_path E) ?w0] =>
    destruct (cleanup_loop_run l w0) as (t & fs1 & H1 & Hl & Hs)
  end.
  rewrite H1. cbn [w_fs w_log] in *.
  destruct (fs1 !! py "/content/downloads") as [[|]|] eqn:Hd;
    repeat (progress (exec; unfold path_exists, listdir; rewrite ?Hd)).
  - eexists. split; [reflexivity|]. split; assumption.
  - destruct (remove_dups _) as [|x xs]; exec.
    + destruct (rmdir fs1 (py "/content/downloads")) as [fs2|e] eqn:Hr; exec.
      * eexists. split; [reflexivity|]. cbn [w_fs]. split.
        -- intros p Hp. eapply rmdir_shrinks; [exact Hr | apply Hl, Hp].
        -- eapply shrinks_trans; [exact Hs | eapply rmdir_shrinks, Hr].
      * eexists. split; [reflexivity|]. split; assumption.
    + eexists. split; [reflexivity|]. split; assumption.
  - eexists. split; [reflexivity|]. split; assumption.
Qed.

End Cleanup.

(** ** The download runner *)

Section Download.

Variable E : Env.

Lemma show_progress_run output last w :
  exists t last',
    show_progress E output last w
    = (Ok last', mkWorld (w_fs w) (t ++ w_log w)).
Proof.
  destruct w as [fs lg]. unfold show_progress.
  repeat match goal with
         | |- context [if ?b then _ else _] => destruct b
         end;
    exec;
    first [ exists [], last; reflexivity
          | eexists [_; _], _; reflexivity ].
Qed.

(** The reading loop consumes every line and does not raise. *)
Lemma read_lines_run outputs last w :
  exists t,
    read_lines E outputs last w = (Ok tt, mkWorld (w_fs w) (t ++ w_log w)).
Proof.
  revert last w. induction outputs as [|o rest IH]; intros last w.
  - exists []. destruct w. reflexivity.
  - destruct (show_progress_run o last w) as (t1 & last' & H1).
    destruct (IH last' (mkWorld (w_fs w) (t1 ++ w_log w))) as (t2 & H2).
    exists (t2 ++ t1). cbn [read_lines]. unfold bind at 1.
    rewrite H1, H2. cbn [w_fs w_log]. rewrite app_assoc. reflexivity.
Qed.

(** A download whose subprocess runs to its end returns whether the
    exit status is zero, and says so last. *)
Lemma download_torrent_run m d w p rc fs1 :
  aria2c E = Ok p -> ending p = Ok rc -> makedirs (w_fs w) d = Ok fs1 ->
  exists t,
    download_torrent E m d w
    = (Ok (rc =? 0)%Z,
       mkWorld (p_effect p fs1) (EPrint (verdict rc ++ NL) :: t)).
Proof.
  intros Ha He Hm. destruct w as [fs lg]. cbn [w_fs] in Hm.
  unfold download_torrent, os_makedirs, fs_update, subprocess_Popen.
  exec. rewrite Hm. exec. rewrite Ha. exec.
  match goal with
  | |- context [read_lines E ?ls ?l ?w0] =>
    destruct (read_lines_run ls l w0) as (t & Hr); rewrite Hr
  end.
  exec. rewrite He. exec. unfold verdict.
  destruct (rc =? 0)%Z; exec; eexists; reflexivity.
Qed.

(** A subprocess that exits with a status other than zero never makes
    the download a success, whatever else happens. *)
Lemma download_torrent_not_true m d w p rc :
  aria2c E = Ok p -> ending p = Ok rc -> rc <> 0%Z ->
  fst (download_torrent E m d w) <> Ok true.
Proof.
  intros Ha He Hrc. destruct w as [fs lg].
  destruct (makedirs fs d) as [fs1|e] eqn:Hm.
  - destruct (download_torrent_run m d (mkWorld fs lg) p rc fs1 Ha He Hm)
      as (t & ->).
    cbn [fst]. apply Z.eqb_neq in Hrc. rewrite Hrc. discriminate.
  - unfold download_torrent, os_makedirs, fs_update. exec. rewrite Hm.
    exec. discriminate.
Qed.

End Download.

(** ** The archiver *)

Section Archiver.

Variable E : Env.

(** When [create_zip] returns a path, zip ran in a directory and exited
    with status 0; the path is the expected one, and the filesystem is
    the one zip left, less the source directory if [rmdir] took it. *)
Lemma create_zip_some source name w zp w' :
  create_zip E source name w = (Ok (Some zp), w') ->
  exists run,
    zip E = Ok run /\ returncode run = 0%Z
    /\ isdir (w_fs w) source = true
    /\ zp = archive_path name
    /\ w_fs w' = match rmdir (effect run (w_fs w)) source with
                 | Ok fs2 => fs2
                 | Raise _ => effect run (w_fs w)
                 end.
Proof.
  destruct w as [fs lg]. unfold create_zip, subprocess_run, os_rmdir, fs_update.
  exec. destruct (isdir fs source) eqn:Hd; exec;
    [|destruct (path_exists fs source); exec; discriminate].
  destruct (zip E) as [run|e] eqn:Hz; exec;
    [|destruct e; exec; discriminate].
  destruct (returncode run =? 0)%Z eqn:Hrc; exec; [|discriminate].
  apply Z.eqb_eq in Hrc.
  destruct (rmdir (effect run fs) source) as [fs2|e] eqn:Hr; exec;
    intros [= <- <-]; exists run; cbn [w_fs]; rewrite ?Hr; auto.
Qed.

Lemma create_zip_result source name w r w' :
  create_zip E source name w = (r, w') ->
  r = Ok None \/ r = Ok (Some (archive_path name))
  \/ r = Raise KeyboardInterrupt.
Proof.
  destruct w as [fs lg]. unfold create_zip, subprocess_run, os_rmdir, fs_update.
  exec. destruct (isdir fs source) eqn:Hd; exec;
    [|destruct (path_exists fs source); exec; intros [= <- _]; auto].
  destruct (zip E) as [run|e] eqn:Hz; exec;
    [|destruct e; exec; intros [= <- _]; auto].
  destruct (returncode run =? 0)%Z eqn:Hrc; exec; [|intros [= <- _]; auto].
  destruct (rmdir (effect run fs) source) as [fs2|e] eqn:Hr; exec;
    intros [= <- _]; auto.
Qed.

End Archiver.

(** C6: when [create_zip] returns a path, and the zip run did what a
    successful move-mode run does, the path is [/content/<name>.zip], a
    regular file is there, and the source directory no longer exists. *)
Theorem create_zip_moves_the_directory
    (E : Env) (source name : pystr) (w w' : World) (zp : pystr) :
  create_zip E source name w = (Ok (Some zp), w') ->
  (forall run, zip E = Ok run ->
               zip_moved (w_fs w) run source (archive_path name)) ->
  zp = py "/content/" ++ name ++ py ".zip"
  /\ isfile (w_fs w') zp = true
  /\ path_exists (w_fs w') source = false.
Proof.
  intros Hrun Hzip.
  destruct (create_zip_some E source name w zp w' Hrun)
    as (run & Hz & Hrc & Hd & -> & Hfs).
  destruct (Hzip run Hz Hrc) as (Hfile & Hempty & Hnot).
  split; [reflexivity|]. rewrite Hfs. clear Hfs.
  unfold rmdir. rewrite Hempty. unfold isfile, path_exists in *.
  destruct (effect run (w_fs w) !! source) as [[|]|] eqn:Hs;
    try discriminate; rewrite ?Hs; try (split; [exact Hfile | reflexivity]).
  rewrite lookup_delete_eq. split; [|reflexivity].
  rewrite lookup_delete_ne; [exact Hfile|].
  intros Heq. rewrite <- Heq in Hfile. rewrite Hs in Hfile. discriminate.
Qed.

Lemma create_zip_moves_the_directory_witness :
  create_zip Samples.happy DOWNLOADS (py "My_Cool_File")
             (mkWorld Samples.downloaded [])
  = (Ok (Some (py "/content/My_Cool_File.zip")),
     snd (create_zip Samples.happy DOWNLOADS (py "My_Cool_File")
                     (mkWorld Samples.downloaded [])))
  /\ isfile
       (w_fs (snd (create_zip Samples.happy DOWNLOADS (py "My_Cool_File")
                              (mkWorld Samples.downloaded []))))
       (py "/content/My_Cool_File.zip") = true
  /\ path_exists
       (w_fs (snd (create_zip Samples.happy DOWNLOADS (py "My_Cool_File")
                              (mkWorld Samples.downloaded []))))
       DOWNLOADS = false.
Proof.
  assert (Hrun : create_zip Samples.happy DOWNLOADS (py "My_Cool_File")
                            (mkWorld Samples.downloaded [])
                 = (Ok (Some (py "/content/My_Cool_File.zip")),
                    snd (create_zip Samples.happy DOWNLOADS (py "My_Cool_File")
                                    (mkWorld Samples.downloaded []))))
    by (vm_compute; reflexivity).
  split; [exact Hrun|].
  refine (proj2 (create_zip_moves_the_directory Samples.happy DOWNLOADS
                   (py "My_Cool_File") (mkWorld Samples.downloaded []) _ _
                   Hrun _)).
  intros run [= <-] _. vm_compute. repeat split.
Defined.

(** ** The uploader *)

Section Uploader.

Variable E : Env.

(** A rejected response makes the uploader return [None]; it does not
    raise, and it does not touch the filesystem. *)
Lemma upload_rejected_run file_path w response :
  gofile E = Ok response -> rejected response ->
  exists t,
    upload_to_gofile E file_path w
    = (Ok JNull, mkWorld (w_fs w) (t ++ ECall F_upload_to_gofile :: w_log w)).
Proof.
  intros Hg Hrej. destruct w as [fs lg].
  unfold upload_to_gofile, open_rb. exec.
  destruct (fs !! file_path) as [[|]|]; exec;
    try (eexists [_; _]; reflexivity).
  rewrite Hg. exec.
  destruct (status_code response =? 200)%Z eqn:Hs; exec;
    [|eexists [_; _; _; _]; reflexivity].
  apply Z.eqb_eq in Hs. destruct Hrej as [Hne|Hbody]; [contradiction|].
  destruct (json_body response) as [body|e]; exec.
  - unfold status_ok in Hbody.
    destruct body as [| | | | |items]; cbn [dict_get] in *; exec;
      try (eexists [_; _; _; _]; reflexivity).
    destruct (assoc (py "status") items) as [status|]; exec;
      cbn [json_eq_str] in *; rewrite ?Hbody; exec;
      destruct (assoc (py "error") items); exec;
      eexists [_; _; _; _]; reflexivity.
  - destruct e; try discriminate; exec; eexists [_; _; _; _]; reflexivity.
Qed.

End Uploader.

(** ** Runs that stop at the validation *)

Section InvalidInput.

Variables (E : Env) (fs : FS) (raw : pystr).
Hypothesis Hline : stdin_line E = Ok raw.
Hypothesis Hbad : startswith MAGNET (strip raw) = false.

(** Whatever apt-get does, such a run logs preliminary events only. *)
Lemma invalid_input_log :
  Forall preliminary (w_log (snd (main E (initial fs)))).
Proof using Hline Hbad.
  unfold main, install_dependencies, subprocess_run_check, subprocess_run,
    initial.
  exec.
  destruct (apt_update E) as [u|e]; exec;
    [destruct (returncode u =? 0)%Z; exec;
     [destruct (apt_install E) as [i|e]; exec;
      [destruct (returncode i =? 0)%Z; exec|]|]|];
    rewrite ?Hline; exec; rewrite ?Hbad; exec;
    repeat (apply List.Forall_cons; [cbn [preliminary]; auto|]);
    apply List.Forall_nil.
Qed.

(** When apt-get succeeds, the run reads the line and rejects it at
    once. *)
Lemma invalid_input_run u i :
  apt_update E = Ok u -> returncode u = 0%Z ->
  apt_install E = Ok i -> returncode i = 0%Z ->
  main E (initial fs)
  = (Ok InvalidInput,
     mkWorld (effect i (effect u fs))
       [EPrint (py "❌ Invalid magnet link!" ++ NL);
        EInput (py "📎 Enter magnet link: ");
        EPrint (py "✅ Dependencies installed!" ++ NL);
        ESpawn apt_install_cmd None;
        ESpawn apt_update_cmd None;
        EPrint (py "🔧 Installing dependencies..." ++ NL);
        ECall F_install_dependencies;
        EPrint (replicate 50 0x3D ++ NL);
        EPrint (py "🚀 Torrent Download & Upload Bot" ++ NL)]).
Proof using Hline Hbad.
  intros Hu Hu0 Hi Hi0.
  unfold main, install_dependencies, subprocess_run_check, subprocess_run,
    initial.
  exec. rewrite Hu. exec. rewrite Hu0. exec. rewrite Hi. exec.
  rewrite Hi0. exec. rewrite Hline. exec. rewrite Hbad. exec. reflexivity.
Qed.

End InvalidInput.

(** C7: an input that, stripped as [main] strips it, does not start with
    [magnet:] never leads to a call of [download_torrent]; and once the
    dependencies are installed, so that the prompt is reached, [main]
    returns through the invalid-input exit right after printing its
    message. *)
Theorem invalid_input_is_rejected (E : Env) (fs : FS) (raw : pystr) :
  stdin_line E = Ok raw ->
  startswith MAGNET (strip raw) = false ->
  ~ called F_download_torrent (trace (snd (main E (initial fs))))
  /\ (apt_succeeds E ->
      fst (main E (initial fs)) = Ok InvalidInput
      /\ last (trace (snd (main E (initial fs))))
         = Some (EPrint (py "❌ Invalid magnet link!" ++ NL))).
Proof.
  intros Hline Hbad. split.
  - unfold called, trace. rewrite <- in_rev. intros Hin.
    pose proof (invalid_input_log E fs raw Hline Hbad) as Hall.
    rewrite Forall_forall in Hall.
    specialize (Hall _ ltac:(apply list_elem_of_In; exact Hin)).
    discriminate Hall.
  - intros (u & i & Hu & Hu0 & Hi & Hi0).
    rewrite (invalid_input_run E fs raw Hline Hbad u i Hu Hu0 Hi Hi0).
    split; reflexivity.
Qed.

Lemma invalid_input_is_rejected_witness :
  ~ called F_download_torrent
      (trace (snd (main Samples.not_a_magnet (initial ∅))))
  /\ fst (main Samples.not_a_magnet (initial ∅)) = Ok InvalidInput
  /\ last (trace (snd (main Samples.not_a_magnet (initial ∅))))
     = Some (EPrint (py "❌ Invalid magnet link!" ++ NL)).
Proof.
  destruct (invalid_input_is_rejected Samples.not_a_magnet ∅
              (py "not-a-magnet") eq_refl eq_refl) as [Hno Hrej].
  split; [exact Hno|]. apply Hrej.
  exists Samples.nothing_done, Samples.nothing_done. repeat split.
Defined.

(** C7, as the claim words it, fails: a line typed with a space in front
    of the magnet link does not start with [magnet:], yet [main], which
    tests the stripped line, prints no rejection and calls
    [download_torrent]. *)
Lemma padded_magnet_reaches_download :
  stdin_line MoreSamples.padded = Ok MoreSamples.padded_magnet
  /\ startswith MAGNET MoreSamples.padded_magnet = false
  /\ called F_download_torrent
       (trace (snd (main MoreSamples.padded (initial ∅))))
  /\ ~ In (EPrint (py "❌ Invalid magnet link!" ++ NL))
          (trace (snd (main MoreSamples.padded (initial ∅)))).
Proof.
  split; [reflexivity|]. split; [vm_compute; reflexivity|]. split.
  - vm_compute. repeat (first [left; reflexivity | right]).
  - vm_compute. intros H.
    repeat (destruct H as [H|H]; [discriminate H|]). exact H.
Qed.

(** C2, as the script has it: such a run starts the two apt-get commands
    of [install_dependencies], which precede the prompt, and nothing else;
    it enters no other function, creates no directory and makes no other
    filesystem or network call.  Once apt-get has succeeded, [main] reads
    the line and returns through the invalid-input exit right after its
    message, and the filesystem is the one apt-get left. *)
Theorem invalid_input_only_runs_apt_get (E : Env) (fs : FS) (raw : pystr) :
  stdin_line E = Ok raw ->
  startswith MAGNET (strip raw) = false ->
  Forall preliminary (trace (snd (main E (initial fs))))
  /\ (forall u i,
        apt_update E = Ok u -> returncode u = 0%Z ->
        apt_install E = Ok i -> returncode i = 0%Z ->
        fst (main E (initial fs)) = Ok InvalidInput
        /\ w_fs (snd (main E (initial fs))) = effect i (effect u fs)
        /\ trace (snd (main E (initial fs)))
           = [EPrint (py "🚀 Torrent Download & Upload Bot" ++ NL);
              EPrint (replicate 50 0x3D ++ NL);
              ECall F_install_dependencies;
              EPrint (py "🔧 Installing dependencies..." ++ NL);
              ESpawn apt_update_cmd None;
              ESpawn apt_install_cmd None;
              EPrint (py "✅ Dependencies installed!" ++ NL);
              EInput (py "📎 Enter magnet link: ");
              EPrint (py "❌ Invalid magnet link!" ++ NL)]).
Proof.
  intros Hline Hbad. split.
  - unfold trace. apply List.Forall_rev.
    exact (invalid_input_log E fs raw Hline Hbad).
  - intros u i Hu Hu0 Hi Hi0.
    rewrite (invalid_input_run E fs raw Hline Hbad u i Hu Hu0 Hi Hi0).
    repeat split.
Qed.

Lemma invalid_input_only_runs_apt_get_witness :
  Forall preliminary (trace (snd (main Samples.not_a_magnet (initial ∅))))
  /\ fst (main Samples.not_a_magnet (initial ∅)) = Ok InvalidInput
  /\ w_fs (snd (main Samples.not_a_magnet (initial ∅))) = ∅.
Proof.
  destruct (invalid_input_only_runs_apt_get Samples.not_a_magnet ∅
              (py "not-a-magnet") eq_refl eq_refl) as [Hall Hrun].
  split; [exact Hall|].
  destruct (Hrun Samples.nothing_done Samples.nothing_done
              eq_refl eq_refl eq_refl eq_refl) as (Hr & Hfs & _).
  split; [exact Hr | exact Hfs].
Defined.

(** C2, as the claim words it, fails: the run on [not-a-magnet] has
    started a subprocess (apt-get update) by the time it rejects the
    input. *)
Lemma not_a_magnet_run_spawns_apt_get :
  stdin_line Samples.not_a_magnet = Ok (py "not-a-magnet")
  /\ fst (main Samples.not_a_magnet (initial ∅)) = Ok InvalidInput
  /\ In (ESpawn apt_update_cmd None)
        (trace (snd (main Samples.not_a_magnet (initial ∅)))).
Proof.
  split; [reflexivity|]. split; [reflexivity|].
  vm_compute. do 4 right. left. reflexivity.
Qed.

(** ** The paths through [main] *)

(** The innermost scrutinee of the matches of a term. *)
Ltac scrutinee t :=
  match t with
  | context [match ?x with _ => _ end] =>
    match x with
    | context [match _ with _ => _ end] => scrutinee x
    | _ => x
    end
  end.

(** One step along a run of [main] recorded in hypothesis [H]: a call of
    a function of the script is replaced by its result and what is known
    of its log; any other branching is split. *)
Ltac path_step E H :=
  let T := type of H in
  match T with
  | context [get_torrent_info E ?m ?w] =>
    rewrite (get_torrent_info_run E m w) in H
  | context [install_dependencies E ?w] =>
    let t := fresh "t_install" in
    let Hl := fresh "Hlog" in
    let Hq := fresh "Hquiet" in
    let fs' := fresh "fs" in
    let lg := fresh "lg" in
    destruct (enters_install_dependencies E w) as (t & Hl & Hq);
    destruct (install_dependencies E w) as [[[]|?e] [fs' lg]] eqn:?Hinstall;
    cbn [snd w_log] in Hl; subst lg
  | context [download_torrent E ?m ?d ?w] =>
    let t := fresh "t_download" in
    let Hl := fresh "Hlog" in
    let Hq := fresh "Hquiet" in
    let fs' := fresh "fs" in
    let lg := fresh "lg" in
    destruct (enters_download_torrent E m d w) as (t & Hl & Hq);
    destruct (download_torrent E m d w) as [[[|]|?e] [fs' lg]] eqn:?Hdownload;
    cbn [snd w_log] in Hl; subst lg
  | context [create_zip E ?s ?n ?w] =>
    let t := fresh "t_zip" in
    let Hl := fresh "Hlog" in
    let Hq := fresh "Hquiet" in
    let Hr := fresh "Hresult" in
    let fs' := fresh "fs" in
    let lg := fresh "lg" in
    destruct (enters_create_zip E s n w) as (t & Hl & Hq);
    destruct (create_zip E s n w) as [?r [fs' lg]] eqn:?Hzip;
    cbn [snd w_log] in Hl; subst lg;
    match goal with
    | Hz : create_zip E s n w = _ |- _ =>
      pose proof (create_zip_result E s n w _ _ Hz) as Hr;
      destruct Hr as [Hr|[Hr|Hr]]; subst;
      try change (archive_path n)
        with (0x2F :: (py "content/" ++ n ++ py ".zip")) in H
    end
  | context [upload_to_gofile E ?p ?w] =>
    let t := fresh "t_upload" in
    let Hl := fresh "Hlog" in
    let Hq := fresh "Hquiet" in
    let fs' := fresh "fs" in
    let lg := fresh "lg" in
    destruct (enters_upload_to_gofile E p w) as (t & Hl & Hq);
    destruct (upload_to_gofile E p w) as [[?page|?e] [fs' lg]] eqn:?Hupload;
    cbn [snd w_log] in Hl; subst lg
  | context [cleanup_files E ?l ?w] =>
    let t := fresh "t_cleanup" in
    let Hl := fresh "Hlog" in
    let Hq := fresh "Hquiet" in
    let Hg := fresh "Hgone" in
    let Hs := fresh "Hshrinks" in
    let Hc := fresh "Hcleanup" in
    let w' := fresh "w" in
    let fs' := fresh "fs" in
    let lg := fresh "lg" in
    destruct (enters_cleanup_files E l w) as (t & Hl & Hq);
    destruct (cleanup_files_run E l w) as (w' & Hc & Hg & Hs);
    rewrite Hc in H, Hl; destruct w' as [fs' lg];
    cbn [snd w_log w_fs] in Hl, Hg, Hs; subst lg
  | _ =>
    let x := scrutinee T in
    destruct x eqn:?
  end;
  exec_in H.

Ltac paths E H := unfold main, initial in H; exec_in H; repeat path_step E H.

(** The final world of a finished path. *)
Ltac finish H := injection H as <- <-.

(** Refutes that a call is among logged events known piece by piece. *)
Ltac not_in Hin :=
  repeat match type of Hin with
         | In _ (_ ++ _) => apply in_app_or in Hin as [Hin|Hin]
         | In _ (_ :: _) => destruct Hin as [Hin|Hin]; [try discriminate Hin|]
         | In _ [] => destruct Hin
         | In (ECall ?f) ?t =>
           match goal with
           | Hq : forall g, ~ In (ECall g) t |- _ => destruct (Hq f Hin)
           end
         end.

Ltac not_called :=
  unfold called, trace; cbn [w_log]; rewrite <- in_rev;
  let Hin := fresh "Hin" in intros Hin; not_in Hin.

Section MainAfterFailedDownload.

Variables (E : Env) (p : Process) (rc : Z).
Hypothesis Ha : aria2c E = Ok p.
Hypothesis He : ending p = Ok rc.
Hypothesis Hrc : rc <> 0%Z.

Lemma main_skips_create_zip fs :
  ~ called F_create_zip (trace (snd (main E (initial fs)))).
Proof using Ha He Hrc.
  destruct (main E (initial fs)) as [r w] eqn:H. cbn [snd].
  paths E H;
    try match goal with
        | Hd : download_torrent E ?m ?d ?w0 = (Ok true, _) |- _ =>
          exfalso;
          apply (download_torrent_not_true E m d w0 p rc Ha He Hrc);
          rewrite Hd; reflexivity
        end;
    finish H; not_called.
Qed.

End MainAfterFailedDownload.

(** C3: when the aria2c subprocess runs to its end, [download_torrent]
    (once it has made its directory, so that the subprocess starts)
    returns whether the exit status is zero, and the last thing it prints
    is its verdict; for a status other than zero the verdict is the
    failure message with that status, and the run of [main] never enters
    [create_zip]. *)
Theorem download_success_iff_exit_zero (E : Env) (p : Process) (rc : Z) :
  aria2c E = Ok p -> ending p = Ok rc ->
  (forall m d w fs1,
     makedirs (w_fs w) d = Ok fs1 ->
     exists t,
       download_torrent E m d w
       = (Ok (rc =? 0)%Z,
          mkWorld (p_effect p fs1) (EPrint (verdict rc ++ NL) :: t)))
  /\ (rc <> 0%Z ->
      verdict rc = py "❌ Download failed with return code: " ++ str_int rc
      /\ forall fs, ~ called F_create_zip (trace (snd (main E (initial fs))))).
Proof.
  intros Ha He. split.
  - intros m d w fs1 Hm. exact (download_torrent_run E m d w p rc fs1 Ha He Hm).
  - intros Hrc. split.
    + unfold verdict. apply Z.eqb_neq in Hrc. rewrite Hrc. reflexivity.
    + exact (main_skips_create_zip E p rc Ha He Hrc).
Qed.

Lemma download_success_iff_exit_zero_witness :
  fst (download_torrent Samples.download_fails Samples.cool_magnet DOWNLOADS
                        (initial ∅)) = Ok false
  /\ verdict 1 = py "❌ Download failed with return code: 1"
  /\ ~ called F_create_zip
        (trace (snd (main Samples.download_fails (initial ∅)))).
Proof.
  destruct (download_success_iff_exit_zero Samples.download_fails _ 1%Z
              eq_refl eq_refl) as [Hd Hm].
  split.
  - assert (Hmk : makedirs (w_fs (initial ∅)) DOWNLOADS
                  = Ok (<[py "/content" := Dir]> (<[DOWNLOADS := Dir]> ∅)))
      by (vm_compute; reflexivity).
    destruct (Hd Samples.cool_magnet DOWNLOADS (initial ∅) _ Hmk) as (t & ->).
    reflexivity.
  - destruct (Hm ltac:(discriminate)) as [Hv Hc]. split; [exact Hv | apply Hc].
Defined.

(** ** Cleanup on the way out *)

(** Shows that a call is among the logged events. *)
Ltac was_called :=
  unfold called, trace; cbn [w_log]; rewrite <- in_rev;
  first [ left; reflexivity | apply in_or_app; right; left; reflexivity ].

(** Shows that a path which [cleanup_files] was given is gone. *)
Ltac now_gone :=
  unfold path_exists;
  match goal with
  | Hg : forall p, In p _ -> _ !! p = None |- _ =>
    rewrite Hg; [reflexivity | first [left; reflexivity | right; left; reflexivity]]
  end.


(** C1, as the script has it: when [main] returns after the upload step
    (success or upload failure), [cleanup_files] has run and neither the
    download directory nor the archive exists; when it returns after a
    user interruption or an unexpected error caught by its [try] block,
    [cleanup_files] has run and the download directory does not exist;
    when it returns on invalid input, [cleanup_files] has not run. *)
Theorem cleanup_runs_on_handled_exits
    (E : Env) (fs : FS) (o : outcome) (w : World) :
  main E (initial fs) = (Ok o, w) ->
  match o with
  | Success | UploadFailed =>
    called F_cleanup_files (trace w)
    /\ path_exists (w_fs w) DOWNLOADS = false
    /\ forall raw, stdin_line E = Ok raw ->
         path_exists (w_fs w) (archive_path (torrent_name E (strip raw)))
         = false
  | Interrupted | UnexpectedError =>
    called F_cleanup_files (trace w)
    /\ path_exists (w_fs w) DOWNLOADS = false
  | InvalidInput => ~ called F_cleanup_files (trace w)
  | DownloadFailed | EmptyDownload | ArchiveFailed => True
  end.
Proof.
  intros H. paths E H; try discriminate H; injection H as <- <-;
    try exact I; cbn [w_fs]; repeat split;
    first [ not_called
          | was_called
          | now_gone
          | intros raw Hraw; injection Hraw as <-; now_gone ].
Qed.

Lemma cleanup_runs_on_handled_exits_witness :
  fst (main Samples.happy (initial ∅)) = Ok Success
  /\ called F_cleanup_files (trace (snd (main Samples.happy (initial ∅))))
  /\ path_exists (w_fs (snd (main Samples.happy (initial ∅)))) DOWNLOADS
     = false
  /\ path_exists (w_fs (snd (main Samples.happy (initial ∅))))
                 (py "/content/My_Cool_File.zip") = false.
Proof.
  assert (Hrun : main Samples.happy (initial ∅)
                 = (Ok Success, snd (main Samples.happy (initial ∅))))
    by (vm_compute; reflexivity).
  split; [rewrite Hrun; reflexivity|].
  destruct (cleanup_runs_on_handled_exits Samples.happy ∅ Success _ Hrun)
    as (Hc & Hd & Ha).
  split; [exact Hc|]. split; [exact Hd|].
  exact (Ha Samples.cool_magnet eq_refl).
Defined.

(** C1, as the claim words it, fails: the run on [not-a-magnet] ends
    through the invalid-input exit without [cleanup_files] having run. *)
Lemma not_a_magnet_run_skips_cleanup :
  fst (main Samples.not_a_magnet (initial ∅)) = Ok InvalidInput
  /\ ~ called F_cleanup_files
        (trace (snd (main Samples.not_a_magnet (initial ∅)))).
Proof.
  split; [reflexivity|].
  vm_compute. intros H.
  repeat (destruct H as [H|H]; [discriminate H|]). exact H.
Qed.

(** Not covered by the statement above: a download that fails after
    writing files returns through [DownloadFailed] without any cleanup,
    and the files stay. *)
Remark failed_download_leaves_files :
  fst (main Samples.download_fails (initial ∅)) = Ok DownloadFailed
  /\ ~ called F_cleanup_files
        (trace (snd (main Samples.download_fails (initial ∅))))
  /\ isfile (w_fs (snd (main Samples.download_fails (initial ∅))))
            (py "/content/downloads/My Cool File.bin") = true.
Proof.
  split; [vm_compute; reflexivity|]. split; [|vm_compute; reflexivity].
  vm_compute. intros H.
  repeat (destruct H as [H|H]; [discriminate H|]). exact H.
Qed.

(** ** A refused upload *)

Lemma rev_two_calls {X} (a b r : list X) (c u : X) :
  rev (a ++ c :: b ++ u :: r) = rev r ++ u :: rev b ++ c :: rev a.
Proof.
  rewrite rev_app_distr. cbn [rev]. rewrite rev_app_distr. cbn [rev].
  rewrite <- !app_assoc. reflexivity.
Qed.

Section MainRefusedUpload.

Variables (E : Env) (response : Response).
Hypothesis Hg : gofile E = Ok response.
Hypothesis Hrej : rejected response.

Lemma main_after_refused_upload fs r w :
  main E (initial fs) = (r, w) ->
  called F_upload_to_gofile (trace w) ->
  r = Ok UploadFailed
  /\ (exists t1 t2 t3,
        trace w = t1 ++ ECall F_upload_to_gofile
                     :: t2 ++ ECall F_cleanup_files :: t3)
  /\ forall raw, stdin_line E = Ok raw ->
       path_exists (w_fs w) (archive_path (torrent_name E (strip raw)))
       = false.
Proof using Hg Hrej.
  intros H. paths E H;
    try match goal with
        | Hu : upload_to_gofile E ?f ?w0 = _ |- _ =>
          destruct (upload_rejected_run E f w0 response Hg Hrej) as (t & Hu');
          rewrite Hu' in Hu; try discriminate Hu;
          injection Hu as <- <- _;
          try match goal with
              | Ht : truthy JNull = true |- _ => discriminate Ht
              end
        end;
    injection H as <- <-; intros Hcalled.
  all: try solve [exfalso; revert Hcalled; not_called].
  cbn [w_fs]. split; [reflexivity|]. split.
  - unfold trace. cbn [w_log]. rewrite rev_two_calls. eauto.
  - intros raw Hraw.
    try match goal with
        | Hl : stdin_line E = Ok _ |- _ => rewrite Hl in Hraw
        end.
    injection Hraw as <-. now_gone.
Qed.

End MainRefusedUpload.

(** C4: when the upload host answers with a status other than 200, or
    with a body that is not a dict whose [status] is [ok], the uploader
    returns [None] (it does not raise); and a run of [main] that reached
    the uploader then calls [cleanup_files], returns through the
    upload-failure exit, and leaves no archive. *)
Theorem refused_upload_returns_none_and_archive_is_cleaned
    (E : Env) (response : Response) :
  gofile E = Ok response -> rejected response ->
  (forall file_path w,
     exists t,
       upload_to_gofile E file_path w
       = (Ok JNull,
          mkWorld (w_fs w) (t ++ ECall F_upload_to_gofile :: w_log w)))
  /\ (forall fs r w,
        main E (initial fs) = (r, w) ->
        called F_upload_to_gofile (trace w) ->
        r = Ok UploadFailed
        /\ (exists t1 t2 t3,
              trace w = t1 ++ ECall F_upload_to_gofile
                           :: t2 ++ ECall F_cleanup_files :: t3)
        /\ forall raw, stdin_line E = Ok raw ->
             path_exists (w_fs w)
                         (archive_path (torrent_name E (strip raw)))
             = false).
Proof.
  intros Hg Hrej. split.
  - intros file_path w. exact (upload_rejected_run E file_path w response Hg Hrej).
  - exact (main_after_refused_upload E response Hg Hrej).
Qed.

Lemma refused_upload_returns_none_and_archive_is_cleaned_witness :
  fst (upload_to_gofile Samples.upload_fails (py "/content/My_Cool_File.zip")
                        (initial ∅)) = Ok JNull
  /\ fst (main Samples.upload_fails (initial ∅)) = Ok UploadFailed
  /\ path_exists (w_fs (snd (main Samples.upload_fails (initial ∅))))
                 (py "/content/My_Cool_File.zip") = false.
Proof.
  assert (Hrej : rejected {| status_code := 500;
                             json_body := Raise (OtherException (py "not JSON")) |})
    by (left; discriminate).
  destruct (refused_upload_returns_none_and_archive_is_cleaned
              Samples.upload_fails _ eq_refl Hrej) as [Hup Hmain].
  split.
  - destruct (Hup (py "/content/My_Cool_File.zip") (initial ∅)) as (t & ->).
    reflexivity.
  - destruct (Hmain ∅ _ _ (surjective_pairing _)) as (Hr & _ & Ha).
    + vm_compute. repeat (first [left; reflexivity | right]).
    + split; [exact Hr|]. exact (Ha Samples.cool_magnet eq_refl).
Defined.

(* ===================================================================== *)
(** * Further properties of the script *)
(* ===================================================================== *)

(** ** More on the sanitizer *)

Section SanitizerShape.

Lemma space_is_legal c : isspace c = true -> illegal c = false.
Proof.
  intros Hs. destruct (illegal c) eqn:Hi; [|reflexivity].
  unfold illegal, illegal_chars in Hi. cbn [existsb] in Hi.
  repeat (apply orb_prop in Hi as [Hi|Hi];
          [apply N.eqb_eq in Hi; subst c; discriminate Hs|]).
  discriminate Hi.
Qed.

Lemma sub_illegal_app a b : sub_illegal (a ++ b) = sub_illegal a ++ sub_illegal b.
Proof. unfold sub_illegal. apply map_app. Qed.

Lemma sub_illegal_spaces ws :
  Forall (fun c => isspace c = true) ws -> sub_illegal ws = ws.
Proof.
  induction 1 as [|c ws Hc _ IH]; [reflexivity|].
  cbn [sub_illegal map]. rewrite (space_is_legal c Hc).
  fold (sub_illegal ws). rewrite IH. reflexivity.
Qed.

Lemma sub_illegal_length s : length (sub_illegal s) = length s.
Proof. unfold sub_illegal. apply length_map. Qed.

Lemma sub_spaces_from_length b s :
  (length (sub_spaces_from b s) <= length s)%nat.
Proof.
  revert b. induction s as [|c s IH]; intros b; cbn [sub_spaces_from length];
    [lia|].
  pose proof (IH true). pose proof (IH false).
  destruct (isspace c); [destruct b|]; cbn [length]; lia.
Qed.

(** Text without whitespace passes the second substitution unchanged. *)
Lemma sub_spaces_from_no_space b s :
  Forall (fun c => isspace c = false) s -> sub_spaces_from b s = s.
Proof.
  intros H. revert b. induction H as [|c s Hc _ IH]; intros b;
    cbn [sub_spaces_from]; [reflexivity|].
  rewrite Hc, IH. reflexivity.
Qed.

Lemma sub_illegal_no_space s :
  Forall (fun c => isspace c = false) s ->
  Forall (fun c => isspace c = false) (sub_illegal s).
Proof.
  induction 1 as [|c s Hc _ IH]; cbn [sub_illegal map]; constructor;
    [destruct (illegal c); [reflexivity | exact Hc] | exact IH].
Qed.

(** Plain text in front is copied, and ends any run. *)
Lemma sub_spaces_from_plain_prefix b a t :
  Forall plain a -> a <> [] ->
  sub_spaces_from b (a ++ t) = a ++ sub_spaces_from false t.
Proof.
  intros Ha. revert b. induction Ha as [|c a [_ Hc] Ha IH]; intros b Hne;
    [contradiction|].
  cbn [app sub_spaces_from]. rewrite Hc. f_equal.
  destruct a as [|c' a'].
  - reflexivity.
  - apply IH. discriminate.
Qed.

(** The rest of a run of whitespace disappears. *)
Lemma sub_spaces_from_run ws t :
  Forall (fun c => isspace c = true) ws ->
  sub_spaces_from true (ws ++ t) = sub_spaces_from true t.
Proof.
  induction 1 as [|c ws Hc _ IH]; [reflexivity|].
  cbn [app sub_spaces_from]. rewrite Hc. exact IH.
Qed.

End SanitizerShape.

(** X1: a sanitized name has no illegal character and no whitespace, and
    is at most as long as the name it comes from and at most 100
    characters long. *)
Theorem sanitize_output_shape (s : pystr) :
  Forall (fun c => illegal c = false /\ isspace c = false)
         (sanitize_filename s)
  /\ (length (sanitize_filename s) <= length s)%nat
  /\ (length (sanitize_filename s) <= 100)%nat.
Proof.
  split; [exact (sanitize_plain s)|]. split; [|apply sanitize_length].
  unfold sanitize_filename, sub_spaces. rewrite length_take.
  pose proof (sub_spaces_from_length false (sub_illegal s)) as H.
  rewrite sub_illegal_length in H. lia.
Qed.

(** X2: a name made of plain characters (none illegal, none whitespace)
    is only truncated: the sanitizer returns its first 100 characters. *)
Theorem sanitize_keeps_plain_text (s : pystr) :
  Forall plain s -> sanitize_filename s = take 100 s.
Proof.
  intros Hp. unfold sanitize_filename, sub_spaces.
  rewrite (sub_illegal_plain s Hp), (sub_spaces_from_id false s Hp).
  reflexivity.
Qed.

Lemma sanitize_keeps_plain_text_witness :
  Forall plain (py "My_Cool_File.v2")
  /\ sanitize_filename (py "My_Cool_File.v2") = take 100 (py "My_Cool_File.v2").
Proof.
  assert (H : Forall plain (py "My_Cool_File.v2"))
    by (repeat (apply List.Forall_cons; [split; reflexivity|]);
        apply List.Forall_nil).
  split; [exact H | exact (sanitize_keeps_plain_text _ H)].
Defined.

(** X3: a run of whitespace of any length between plain text becomes a
    single underscore. *)
Theorem sanitize_collapses_whitespace_run (a ws b : pystr) :
  Forall plain a -> Forall plain b ->
  Forall (fun c => isspace c = true) ws -> ws <> [] ->
  sanitize_filename (a ++ ws ++ b) = take 100 (a ++ UNDERSCORE :: b).
Proof.
  intros Ha Hb Hws Hne. unfold sanitize_filename, sub_spaces. f_equal.
  rewrite !sub_illegal_app, (sub_illegal_plain a Ha),
    (sub_illegal_plain b Hb), (sub_illegal_spaces ws Hws).
  assert (Hrun : sub_spaces_from false (ws ++ b) = UNDERSCORE :: b).
  { destruct Hws as [|c ws' Hc Hws']; [contradiction|].
    cbn [app sub_spaces_from]. rewrite Hc. f_equal.
    rewrite (sub_spaces_from_run ws' b Hws').
    apply sub_spaces_from_id, Hb. }
  destruct a as [|c a'].
  - exact Hrun.
  - rewrite sub_spaces_from_plain_prefix by (exact Ha || discriminate).
    f_equal. exact Hrun.
Qed.

Lemma sanitize_collapses_whitespace_run_witness :
  sanitize_filename (py "Big" ++ [0x20; 0x09; 0xA0; 0x20] ++ py "Buck")
  = take 100 (py "Big" ++ UNDERSCORE :: py "Buck").
Proof.
  apply sanitize_collapses_whitespace_run.
  - repeat (apply List.Forall_cons; [split; reflexivity|]); apply List.Forall_nil.
  - repeat (apply List.Forall_cons; [split; reflexivity|]); apply List.Forall_nil.
  - repeat (apply List.Forall_cons; [reflexivity|]); apply List.Forall_nil.
  - discriminate.
Defined.

(** X4: illegal characters are replaced one for one, not collapsed: a
    name without whitespace keeps its length, up to the limit of 100. *)
Theorem sanitize_replaces_one_for_one (s : pystr) :
  Forall (fun c => isspace c = false) s ->
  sanitize_filename s = take 100 (sub_illegal s)
  /\ length (sanitize_filename s) = Nat.min 100 (length s).
Proof.
  intros Hs.
  assert (H : sanitize_filename s = take 100 (sub_illegal s)).
  { unfold sanitize_filename, sub_spaces. f_equal.
    apply sub_spaces_from_no_space, sub_illegal_no_space, Hs. }
  split; [exact H|]. rewrite H, length_take, sub_illegal_length. lia.
Qed.

Lemma sanitize_replaces_one_for_one_witness :
  sanitize_filename (py "a::b") = take 100 (sub_illegal (py "a::b"))
  /\ length (sanitize_filename (py "a::b")) = Nat.min 100 (length (py "a::b")).
Proof.
  apply sanitize_replaces_one_for_one.
  repeat (apply List.Forall_cons; [reflexivity|]); apply List.Forall_nil.
Defined.

(** ** More on the name extractor *)

Section SearchShape.

Lemma startswith_inv p s :
  startswith p s = true -> s = p ++ drop (length p) s.
Proof.
  revert s. induction p as [|x p IH]; intros s H; [reflexivity|].
  destruct s as [|y s]; [discriminate|]. cbn [startswith] in H.
  apply andb_prop in H as [Hxy Hp]. apply N.eqb_eq in Hxy. subst y.
  cbn [length drop app]. f_equal. apply IH, Hp.
Qed.

(** What [span] returns, and where it stops. *)
Lemma span_spec p s :
  Forall (fun c => p c = true) (span p s)
  /\ exists rest,
       s = span p s ++ rest
       /\ (rest = [] \/ exists c t, rest = c :: t /\ p c = false).
Proof.
  induction s as [|c s (IHall & rest & IHs & IHrest)]; cbn [span].
  - split; [constructor|]. exists []. split; [reflexivity | left; reflexivity].
  - destruct (p c) eqn:Hc.
    + split; [constructor; assumption|]. exists rest. split.
      * cbn [app]. f_equal. exact IHs.
      * exact IHrest.
    + split; [constructor|]. exists (c :: s). split; [reflexivity|].
      right. exists c, s. split; [reflexivity | exact Hc].
Qed.

Lemma span_app p v post :
  Forall (fun c => p c = true) v ->
  (post = [] \/ exists c t, post = c :: t /\ p c = false) ->
  span p (v ++ post) = v.
Proof.
  intros Hv Hpost. induction Hv as [|c v Hc _ IH]; cbn [app span].
  - destruct Hpost as [->|(c & t & -> & Hc)]; cbn [span]; [reflexivity|].
    rewrite Hc. reflexivity.
  - rewrite Hc, IH. reflexivity.
Qed.

Lemma match_dn_here_sound s g :
  match_dn_here s = Some g ->
  g <> [] /\ Forall (fun c => c <> AMP) g
  /\ exists post,
       s = py "dn=" ++ g ++ post /\ (post = [] \/ exists t, post = AMP :: t).
Proof.
  unfold match_dn_here. destruct (startswith (py "dn=") s) eqn:Hs;
    [|discriminate].
  apply startswith_inv in Hs. change (length (py "dn=")) with 3%nat in Hs.
  destruct (span_spec (fun c => negb (c =? AMP)) (drop 3 s))
    as (Hall & rest & Hsplit & Hrest).
  destruct (span (fun c => negb (c =? AMP)) (drop 3 s)) as [|c g'] eqn:Hg;
    [discriminate|].
  intros [= <-]. split; [discriminate|]. split.
  - eapply Forall_impl; [exact Hall|]. cbv beta. intros x Hx.
    apply negb_true_iff, N.eqb_neq in Hx. exact Hx.
  - exists rest. split; [rewrite Hs at 1; rewrite Hsplit at 1; reflexivity|].
    destruct Hrest as [->|(x & t & -> & Hx)]; [left; reflexivity|].
    right. exists t. apply negb_false_iff, N.eqb_eq in Hx. subst x. reflexivity.
Qed.

Lemma search_dn_unfold s :
  search_dn s =
  match match_dn_here s with
  | Some g => Some g
  | None => match s with [] => None | _ :: t => search_dn t end
  end.
Proof. destruct s; reflexivity. Qed.

Lemma search_dn_sound m g :
  search_dn m = Some g ->
  g <> [] /\ Forall (fun c => c <> AMP) g
  /\ exists pre post,
       m = pre ++ py "dn=" ++ g ++ post
       /\ (post = [] \/ exists t, post = AMP :: t).
Proof.
  induction m as [|x m IH]; rewrite search_dn_unfold.
  - destruct (match_dn_here []) as [g'|] eqn:Hm; [|discriminate].
    intros [= <-]. destruct (match_dn_here_sound _ _ Hm) as (H1 & H2 & post & H3 & H4).
    split; [exact H1|]. split; [exact H2|]. exists [], post. split; assumption.
  - destruct (match_dn_here (x :: m)) as [g'|] eqn:Hm.
    + intros [= <-].
      destruct (match_dn_here_sound _ _ Hm) as (H1 & H2 & post & H3 & H4).
      split; [exact H1|]. split; [exact H2|]. exists [], post. split; assumption.
    + intros Hs. destruct (IH Hs) as (H1 & H2 & pre & post & H3 & H4).
      split; [exact H1|]. split; [exact H2|]. exists (x :: pre), post.
      split; [cbn [app]; f_equal; exact H3 | exact H4].
Qed.

(** A [dn=] that does not occur in [pre] is not found there. *)
Lemma search_dn_skips pre rest :
  contains (py "dn=") pre = false ->
  search_dn (pre ++ py "dn=" ++ rest) = search_dn (py "dn=" ++ rest).
Proof.
  induction pre as [|x pre IH]; intros Hc; [reflexivity|].
  rewrite contains_unfold in Hc. apply orb_false_elim in Hc as [Hs Hc].
  rewrite search_dn_unfold.
  assert (Hhere : match_dn_here ((x :: pre) ++ py "dn=" ++ rest) = None).
  { unfold match_dn_here.
    assert (Hs' : startswith (py "dn=") ((x :: pre) ++ py "dn=" ++ rest) = false).
    { change (py "dn=") with [100; 110; 61] in *.
      cbn [app startswith] in *.
      destruct (100 =? x); [|reflexivity]. cbn [andb] in *.
      destruct pre as [|y pre]; [reflexivity|]. cbn [app startswith] in *.
      destruct (110 =? y); [|reflexivity]. cbn [andb] in *.
      destruct pre as [|z pre]; [reflexivity|]. cbn [app startswith] in *.
      destruct (61 =? z); [discriminate Hs | reflexivity]. }
    rewrite Hs'. reflexivity. }
  rewrite Hhere. cbn [app]. apply IH, Hc.
Qed.

End SearchShape.

(** X5: what the search for the display name returns is a piece of the
    magnet string: it is not empty, has no ampersand, comes right after
    a [dn=], and runs to the next ampersand or to the end of the
    string. *)
Theorem search_dn_returns_the_value (m g : pystr) :
  search_dn m = Some g ->
  g <> [] /\ Forall (fun c => c <> AMP) g
  /\ exists pre post,
       m = pre ++ py "dn=" ++ g ++ post
       /\ (post = [] \/ exists t, post = AMP :: t).
Proof. exact (search_dn_sound m g). Qed.

Lemma search_dn_returns_the_value_witness :
  search_dn (py "magnet:?dn=&xt=1&dn=a+b&tr=x") = Some (py "a+b")
  /\ exists pre post,
       py "magnet:?dn=&xt=1&dn=a+b&tr=x" = pre ++ py "dn=" ++ py "a+b" ++ post
       /\ (post = [] \/ exists t, post = AMP :: t).
Proof.
  split; [reflexivity|].
  exact (proj2 (proj2 (search_dn_returns_the_value
                         (py "magnet:?dn=&xt=1&dn=a+b&tr=x") (py "a+b")
                         eq_refl))).
Defined.

(** The label by cases on the search. *)
Lemma get_torrent_info_search_run (E : Env) (m : pystr) (w : World) :
  get_torrent_info E m w
  = (Ok match search_dn m with
        | Some g => sanitize_filename (unquote_plus E g)
        | None => py "torrent_" ++ str_int (clock E)
        end,
     mkWorld (w_fs w) (ECall F_get_torrent_info :: w_log w)).
Proof.
  rewrite get_torrent_info_run. f_equal. f_equal.
  destruct (search_dn m) as [g|] eqn:Hs.
  - apply torrent_name_dn; [|exact Hs].
    destruct (search_dn_sound m g Hs) as (_ & _ & pre & post & -> & _).
    apply contains_app.
  - unfold torrent_name, get_torrent_info. exec. rewrite Hs.
    destruct (contains (py "dn=") m); reflexivity.
Qed.

(** X6: the label is decided by the search alone: [get_torrent_info]
    returns (it never raises, and leaves the filesystem alone) the
    sanitized, decoded value when the search finds one, and the
    timestamp label otherwise; the test for [dn=] before the search
    changes nothing. *)
Theorem get_torrent_info_by_search (E : Env) (m : pystr) (w : World) :
  get_torrent_info E m w
  = (Ok match search_dn m with
        | Some g => sanitize_filename (unquote_plus E g)
        | None => py "torrent_" ++ str_int (clock E)
        end,
     mkWorld (w_fs w) (ECall F_get_torrent_info :: w_log w)).
Proof. exact (get_torrent_info_search_run E m w). Qed.

Section LabelShape.

Variable E : Env.

Lemma digit_plain c : is_digit c -> plain c.
Proof.
  unfold is_digit. intros [Hlo Hhi].
  assert (H : c = 48 \/ c = 49 \/ c = 50 \/ c = 51 \/ c = 52 \/ c = 53
              \/ c = 54 \/ c = 55 \/ c = 56 \/ c = 57) by lia.
  repeat (destruct H as [->|H]; [split; reflexivity|]).
  subst c. split; reflexivity.
Qed.

(** The numeral of any integer is made of digits and a minus sign. *)
Lemma str_int_plain (n : Z) : Forall plain (str_int n).
Proof.
  destruct n as [|p|p].
  - eapply Forall_impl; [apply (str_int_digits 0); lia | exact digit_plain].
  - eapply Forall_impl; [apply (str_int_digits (Z.pos p)); lia | exact digit_plain].
  - unfold str_int, py.
    cbn [Z.to_int NilZero.string_of_int list_ascii_of_string map].
    rewrite utf8_ascii by (vm_compute; reflexivity).
    constructor; [split; reflexivity|].
    pose proof (string_of_uint_digits (Pos.to_uint p)) as H.
    eapply Forall_impl; [|exact digit_plain].
    destruct (Pos.to_uint p) eqn:Hp; try exact H.
    exfalso. exact (DecimalPos.Unsigned.to_uint_nonnil p Hp).
Qed.

Lemma torrent_name_plain m : Forall plain (torrent_name E m).
Proof.
  pose proof (get_torrent_info_search_run E m (initial ∅)) as H.
  unfold torrent_name. rewrite H. cbn [fst].
  destruct (search_dn m); [apply sanitize_plain|].
  apply Forall_app. split; [|apply str_int_plain].
  repeat (apply List.Forall_cons; [split; reflexivity|]); apply List.Forall_nil.
Qed.

Lemma plain_not_slash c : plain c -> c <> SLASH.
Proof. intros [Hi _] ->. discriminate Hi. Qed.

Lemma archive_outside name :
  Forall plain name ->
  under DOWNLOADS (archive_path name) = false
  /\ archive_path name <> DOWNLOADS.
Proof.
  intros Hp. split.
  - destruct (under DOWNLOADS (archive_path name)) eqn:Hu; [|reflexivity].
    exfalso. unfold under in Hu. apply startswith_inv in Hu.
    unfold archive_path in Hu.
    change (DOWNLOADS ++ [SLASH]) with (py "/content/" ++ py "downloads/") in Hu.
    rewrite <- app_assoc in Hu. apply app_inv_head in Hu.
    assert (Hin : In SLASH (name ++ py ".zip")).
    { rewrite Hu. apply in_or_app. left.
      change (py "downloads/") with (py "downloads" ++ [SLASH]).
      apply in_or_app. right. left. reflexivity. }
    apply in_app_or in Hin as [Hin|Hin].
    + rewrite Forall_forall in Hp.
      apply (plain_not_slash SLASH); [|reflexivity].
      apply Hp, list_elem_of_In, Hin.
    + vm_compute in Hin. repeat (destruct Hin as [Hin|Hin]; [discriminate Hin|]).
      exact Hin.
  - unfold archive_path. intros Heq.
    change DOWNLOADS with (py "/content/" ++ py "downloads") in Heq.
    apply app_inv_head in Heq. apply (f_equal (@rev N)) in Heq.
    rewrite rev_app_distr in Heq. discriminate Heq.
Qed.

Lemma replace_char_absent a b s :
  Forall (fun c => c <> a) s -> replace_char a b s = s.
Proof.
  induction 1 as [|c s Hc _ IH]; [reflexivity|].
  cbn [replace_char map]. apply N.eqb_neq in Hc. rewrite Hc.
  fold (replace_char a b s). rewrite IH. reflexivity.
Qed.

Lemma contains_char_absent a s :
  Forall (fun c => c <> a) s -> contains [a] s = false.
Proof.
  induction 1 as [|c s Hc _ IH]; [reflexivity|].
  rewrite contains_unfold. cbn [startswith]. rewrite IH.
  apply not_eq_sym, N.eqb_neq in Hc. rewrite Hc. reflexivity.
Qed.

Lemma unquote_plus_verbatim v : Forall verbatim v -> unquote_plus E v = v.
Proof.
  intros Hv. unfold unquote_plus, unquote.
  rewrite replace_char_absent
    by (eapply Forall_impl; [exact Hv | intros c (_ & _ & H & _); exact H]).
  change (py "%") with [0x25].
  rewrite contains_char_absent
    by (eapply Forall_impl; [exact Hv | intros c (_ & _ & _ & H); exact H]).
  reflexivity.
Qed.

End LabelShape.

(** X7: whichever branch produces it, the label has no illegal character
    and no whitespace. *)
Theorem label_is_always_plain (E : Env) (m : pystr) (w : World) :
  exists name,
    fst (get_torrent_info E m w) = Ok name
    /\ Forall (fun c => illegal c = false /\ isspace c = false) name.
Proof.
  exists (torrent_name E m). rewrite get_torrent_info_run.
  split; [reflexivity | apply torrent_name_plain].
Qed.

(** X8: the archive that [main] asks [create_zip] for, named after the
    label, is never the download directory nor a path inside it. *)
Theorem archive_is_outside_downloads (E : Env) (m : pystr) :
  under DOWNLOADS (archive_path (torrent_name E m)) = false
  /\ archive_path (torrent_name E m) <> DOWNLOADS.
Proof. apply archive_outside, torrent_name_plain. Qed.

(** X9: a display name made of verbatim characters, at most 100 of them,
    that follows the first [dn=] of the string and runs to the next
    ampersand or the end, is returned as it is. *)
Theorem display_name_round_trip (E : Env) (pre v post : pystr) (w : World) :
  contains (py "dn=") pre = false ->
  v <> [] -> Forall verbatim v -> (length v <= 100)%nat ->
  (post = [] \/ exists t, post = AMP :: t) ->
  fst (get_torrent_info E (pre ++ py "dn=" ++ v ++ post) w) = Ok v.
Proof.
  intros Hpre Hne Hv Hlen Hpost.
  rewrite get_torrent_info_search_run. cbn [fst]. f_equal.
  rewrite (search_dn_skips pre (v ++ post) Hpre), search_dn_unfold.
  unfold match_dn_here. rewrite startswith_app.
  change (drop 3 (py "dn=" ++ v ++ post)) with (v ++ post).
  rewrite span_app.
  - destruct v as [|c v']; [contradiction|].
    rewrite (unquote_plus_verbatim E _ Hv).
    apply sanitize_fixed; [|exact Hlen].
    eapply Forall_impl; [exact Hv | intros x [H _]; exact H].
  - eapply Forall_impl; [exact Hv|]. cbv beta. intros x (_ & H & _).
    apply negb_true_iff, N.eqb_neq. exact H.
  - destruct Hpost as [->|(t & ->)]; [left; reflexivity|].
    right. exists AMP, t. split; reflexivity.
Qed.

Lemma display_name_round_trip_witness :
  fst (get_torrent_info Samples.offline
         (py "magnet:?xt=urn:btih:ABC&" ++ py "dn=" ++ py "Big.Buck.Bunny-1080p"
          ++ py "&tr=udp://t.example") (initial ∅))
  = Ok (py "Big.Buck.Bunny-1080p").
Proof.
  apply display_name_round_trip.
  - vm_compute. reflexivity.
  - discriminate.
  - change (py "Big.Buck.Bunny-1080p")
      with [66; 105; 103; 46; 66; 117; 99; 107; 46; 66; 117; 110; 110; 121;
            45; 49; 48; 56; 48; 112].
    repeat (apply List.Forall_cons;
            [split; [split; reflexivity | repeat split; discriminate]|]);
      apply List.Forall_nil.
  - vm_compute. lia.
  - right. exists (py "tr=udp://t.example"). vm_compute. reflexivity.
Defined.

(** ** More on the download runner *)

Section DownloadEdges.

Variable E : Env.

Lemma str_eqb_refl s : str_eqb s s = true.
Proof.
  induction s as [|c s IH]; [reflexivity|].
  cbn [str_eqb]. rewrite N.eqb_refl. exact IH.
Qed.

(** Showing the same line again changes nothing. *)
Lemma show_progress_again output last w last' w' :
  show_progress E output last w = (Ok last', w') ->
  show_progress E output last' w' = (Ok last', w').
Proof.
  destruct w as [fs lg]. unfold show_progress.
  destruct (nonempty output); [|exec; intros [= <- <-]; reflexivity].
  cbv zeta.
  destruct (nonempty (strip output)
            && negb (existsb (fun x => contains x (str_lower E (strip output)))
                             noise));
    [|exec; intros [= <- <-]; reflexivity].
  destruct (existsb (fun indicator => contains indicator (strip output))
                    indicators);
    [|exec; intros [= <- <-]; reflexivity].
  destruct (str_eqb (strip output) last) eqn:Heq; exec.
  - intros [= <- <-]. rewrite Heq. reflexivity.
  - intros [= <- <-]. rewrite str_eqb_refl. reflexivity.
Qed.

Lemma show_progress_ok output last w :
  exists last' w', show_progress E output last w = (Ok last', w').
Proof.
  destruct (show_progress_run E output last w) as (t & last' & H).
  eauto.
Qed.

End DownloadEdges.

Lemma download_torrent_raise_run
    (E : Env) (m d : pystr) (w : World) (fs1 : FS) (e : exn) :
  makedirs (w_fs w) d = Ok fs1 ->
  (aria2c E = Raise e \/ exists p, aria2c E = Ok p /\ ending p = Raise e) ->
  fst (download_torrent E m d w)
  = (if is_Exception e then Ok false else Raise e)
  /\ (is_Exception e = true ->
      hd_error (w_log (snd (download_torrent E m d w)))
      = Some (EPrint ((py "❌ Error during download: " ++ str_exn E e) ++ NL))).
Proof.
  intros Hm Hraise. destruct w as [fs lg]. cbn [w_fs] in Hm.
  unfold download_torrent, os_makedirs, fs_update, subprocess_Popen.
  exec. rewrite Hm. exec.
  destruct Hraise as [Ha|(p & Ha & He)]; rewrite Ha; exec.
  - destruct e; exec; split; try reflexivity; discriminate.
  - match goal with
    | |- context [read_lines E ?ls ?l ?w0] =>
      destruct (read_lines_run E ls l w0) as (t & Hr); rewrite Hr
    end.
    exec. rewrite He. exec.
    destruct e; exec; split; try reflexivity; discriminate.
Qed.

(** X10: when starting aria2c, or reading its output, raises an
    exception, [download_torrent] (once it has made its directory)
    returns [False] after printing the error if the exception is an
    [Exception]; a [KeyboardInterrupt] goes through. *)
Theorem download_torrent_handles_exceptions
    (E : Env) (m d : pystr) (w : World) (fs1 : FS) (e : exn) :
  makedirs (w_fs w) d = Ok fs1 ->
  (aria2c E = Raise e \/ exists p, aria2c E = Ok p /\ ending p = Raise e) ->
  fst (download_torrent E m d w)
  = (if is_Exception e then Ok false else Raise e)
  /\ (is_Exception e = true ->
      hd_error (w_log (snd (download_torrent E m d w)))
      = Some (EPrint ((py "❌ Error during download: " ++ str_exn E e) ++ NL))).
Proof. exact (download_torrent_raise_run E m d w fs1 e). Qed.

Lemma download_torrent_handles_exceptions_witness :
  fst (download_torrent
         (Samples.env (Ok Samples.cool_magnet)
                      (Raise (OSError (py "ENOENT") (py "aria2c")))
                      (Raise KeyboardInterrupt) (Raise KeyboardInterrupt))
         Samples.cool_magnet DOWNLOADS (initial ∅))
  = Ok false.
Proof.
  assert (Hmk : makedirs (w_fs (initial ∅)) DOWNLOADS
                = Ok (<[py "/content" := Dir]> (<[DOWNLOADS := Dir]> ∅)))
    by (vm_compute; reflexivity).
  exact (proj1 (download_torrent_handles_exceptions
                  (Samples.env (Ok Samples.cool_magnet)
                     (Raise (OSError (py "ENOENT") (py "aria2c")))
                     (Raise KeyboardInterrupt) (Raise KeyboardInterrupt))
                  Samples.cool_magnet DOWNLOADS (initial ∅) _
                  (OSError (py "ENOENT") (py "aria2c")) Hmk
                  (or_introl eq_refl))).
Defined.

(** X11: when a regular file is in the way of the download directory,
    [download_torrent] raises an [OSError] from [os.makedirs], which is
    outside its [try]: it prints nothing, starts no subprocess and leaves
    the filesystem as it was. *)
Theorem download_torrent_blocked_directory
    (E : Env) (m d : pystr) (w : World) :
  isfile (w_fs w) d = true ->
  exists errno,
    download_torrent E m d w
    = (Raise (OSError errno d),
       mkWorld (w_fs w) (EMakedirs d :: ECall F_download_torrent :: w_log w)).
Proof.
  intros Hf. destruct w as [fs lg]. cbn [w_fs] in *.
  assert (Hm : exists errno, makedirs fs d = Raise (OSError errno d)).
  { unfold makedirs. destruct (find (isfile fs) (ancestors d)); [eauto|].
    rewrite Hf. eauto. }
  destruct Hm as (errno & Hm). exists errno.
  unfold download_torrent, os_makedirs, fs_update. exec. rewrite Hm. exec.
  reflexivity.
Qed.

Lemma download_torrent_blocked_directory_witness :
  exists errno,
    download_torrent Samples.happy Samples.cool_magnet DOWNLOADS
                     (mkWorld (<[DOWNLOADS := File]> ∅) [])
    = (Raise (OSError errno DOWNLOADS),
       mkWorld (<[DOWNLOADS := File]> ∅)
               [EMakedirs DOWNLOADS; ECall F_download_torrent]).
Proof.
  assert (Hf : isfile (w_fs (mkWorld (<[DOWNLOADS := File]> ∅) [])) DOWNLOADS
               = true) by (vm_compute; reflexivity).
  destruct (download_torrent_blocked_directory Samples.happy
              Samples.cool_magnet DOWNLOADS
              (mkWorld (<[DOWNLOADS := File]> ∅) []) Hf) as (errno & H).
  exists errno. exact H.
Defined.

(** X12: a line that aria2c repeats is rendered once: reading the same
    line twice in a row gives the same result, log and filesystem as
    reading it once. *)
Theorem repeated_line_is_shown_once
    (E : Env) (output : pystr) (rest : list pystr) (last : pystr) (w : World) :
  read_lines E (output :: output :: rest) last w
  = read_lines E (output :: rest) last w.
Proof.
  destruct (show_progress_ok E output last w) as (last' & w' & H1).
  pose proof (show_progress_again E output last w last' w' H1) as H2.
  cbn [read_lines]. unfold bind. rewrite H1, H2. reflexivity.
Qed.

(** ** More on the archiver *)

(** X13: [create_zip] returns [None] or the expected path; the only
    exception it lets through is a [KeyboardInterrupt] raised while zip
    runs. *)
Theorem create_zip_lets_only_interrupts_through
    (E : Env) (source name : pystr) (w : World) :
  match fst (create_zip E source name w) with
  | Ok None => True
  | Ok (Some zip_path) => zip_path = archive_path name
  | Raise e => e = KeyboardInterrupt /\ zip E = Raise KeyboardInterrupt
  end.
Proof.
  destruct w as [fs lg]. unfold create_zip, subprocess_run, os_rmdir, fs_update.
  exec. destruct (isdir fs source) eqn:Hd; exec;
    [|destruct (path_exists fs source); exec; exact I].
  destruct (zip E) as [run|e] eqn:Hz; exec;
    [|destruct e; exec; auto].
  destruct (returncode run =? 0)%Z eqn:Hrc; exec; [|exact I].
  destruct (rmdir (effect run fs) source) as [fs2|e] eqn:Hr; exec; reflexivity.
Qed.

(** X14: when the source is not a directory, [create_zip] returns [None]
    and the filesystem is as before: zip did not run. *)
Theorem create_zip_without_source
    (E : Env) (source name : pystr) (w : World) :
  isdir (w_fs w) source = false ->
  fst (create_zip E source name w) = Ok None
  /\ w_fs (snd (create_zip E source name w)) = w_fs w.
Proof.
  intros Hd. destruct w as [fs lg]. cbn [w_fs] in *.
  unfold create_zip, subprocess_run, os_rmdir, fs_update.
  exec. rewrite Hd. exec. destruct (path_exists fs source); exec;
    split; reflexivity.
Qed.

Lemma create_zip_without_source_witness :
  fst (create_zip Samples.happy DOWNLOADS (py "My_Cool_File") (initial ∅))
  = Ok None
  /\ w_fs (snd (create_zip Samples.happy DOWNLOADS (py "My_Cool_File")
                           (initial ∅))) = ∅.
Proof.
  apply (create_zip_without_source Samples.happy DOWNLOADS (py "My_Cool_File")
           (initial ∅)).
  reflexivity.
Defined.

(** X15: when zip exits with a status other than 0, [create_zip] prints
    zip's error output and returns [None]; it does not try to remove the
    source directory, and the filesystem is the one zip left. *)
Theorem create_zip_after_failed_zip
    (E : Env) (source name : pystr) (w : World) (run : CompletedProcess) :
  isdir (w_fs w) source = true ->
  zip E = Ok run -> returncode run <> 0%Z ->
  create_zip E source name w
  = (Ok None,
     mkWorld (effect run (w_fs w))
       (EPrint ((py "❌ Error creating zip: " ++ stderr run) ++ NL)
        :: ESpawn [py "zip"; py "-r"; py "-m"; archive_path name; py "."]
                  (Some source)
        :: EPrint ((py "📦 Creating zip archive: " ++ name) ++ NL)
        :: ECall F_create_zip :: w_log w)).
Proof.
  intros Hd Hz Hrc. destruct w as [fs lg]. cbn [w_fs w_log] in *.
  unfold create_zip, subprocess_run, os_rmdir, fs_update.
  exec. rewrite Hd. exec. rewrite Hz. exec.
  apply Z.eqb_neq in Hrc. rewrite Hrc. exec. reflexivity.
Qed.

Lemma create_zip_after_failed_zip_witness :
  fst (create_zip
         (Samples.env (Ok Samples.cool_magnet) (Samples.download_exits 0)
            (Ok {| returncode := 12; stderr := py "zip error: Nothing to do!";
                   effect := fun fs => fs |})
            Samples.upload_accepted)
         DOWNLOADS (py "My_Cool_File") (mkWorld Samples.downloaded []))
  = Ok None.
Proof.
  rewrite (create_zip_after_failed_zip
             (Samples.env (Ok Samples.cool_magnet) (Samples.download_exits 0)
                (Ok {| returncode := 12;
                       stderr := py "zip error: Nothing to do!";
                       effect := fun fs => fs |})
                Samples.upload_accepted)
             DOWNLOADS (py "My_Cool_File") (mkWorld Samples.downloaded [])
             _ ltac:(vm_compute; reflexivity) eq_refl ltac:(discriminate)).
  reflexivity.
Defined.

Lemma create_zip_exit_zero
    (E : Env) (source name : pystr) (w : World) (run : CompletedProcess) :
  isdir (w_fs w) source = true ->
  zip E = Ok run -> returncode run = 0%Z ->
  fst (create_zip E source name w) = Ok (Some (archive_path name))
  /\ w_fs (snd (create_zip E source name w))
     = match rmdir (effect run (w_fs w)) source with
       | Ok fs2 => fs2
       | Raise _ => effect run (w_fs w)
       end
  /\ (below (effect run (w_fs w)) source <> [] ->
      w_fs (snd (create_zip E source name w)) = effect run (w_fs w)).
Proof.
  intros Hd Hz Hrc. destruct w as [fs lg]. cbn [w_fs w_log] in *.
  assert (H : fst (create_zip E source name (mkWorld fs lg))
              = Ok (Some (archive_path name))
              /\ w_fs (snd (create_zip E source name (mkWorld fs lg)))
                 = match rmdir (effect run fs) source with
                   | Ok fs2 => fs2
                   | Raise _ => effect run fs
                   end).
  { unfold create_zip, subprocess_run, os_rmdir, fs_update.
    apply Z.eqb_eq in Hrc.
    exec. rewrite Hd. exec. rewrite Hz. exec. rewrite Hrc. exec.
    destruct (rmdir (effect run fs) source); exec; split; reflexivity. }
  destruct H as [H1 H2]. split; [exact H1|]. split; [exact H2|].
  intros Hleft. rewrite H2. unfold rmdir.
  destruct (effect run fs !! source) as [[|]|]; try reflexivity.
  destruct (below (effect run fs) source); [contradiction | reflexivity].
Qed.

(** X16: when zip exits with status 0, [create_zip] returns the path
    whether or not the source directory can be removed: if something is
    still below it, the directory stays and no error is reported. *)
Theorem create_zip_after_successful_zip
    (E : Env) (source name : pystr) (w : World) (run : CompletedProcess) :
  isdir (w_fs w) source = true ->
  zip E = Ok run -> returncode run = 0%Z ->
  fst (create_zip E source name w) = Ok (Some (archive_path name))
  /\ w_fs (snd (create_zip E source name w))
     = match rmdir (effect run (w_fs w)) source with
       | Ok fs2 => fs2
       | Raise _ => effect run (w_fs w)
       end
  /\ (below (effect run (w_fs w)) source <> [] ->
      w_fs (snd (create_zip E source name w)) = effect run (w_fs w)).
Proof. exact (create_zip_exit_zero E source name w run). Qed.

Lemma create_zip_after_successful_zip_witness :
  fst (create_zip
         (Samples.env (Ok Samples.cool_magnet) (Samples.download_exits 0)
            (Ok {| returncode := 0; stderr := [];
                   effect := fun fs => <[py "/content/My_Cool_File.zip" := File]> fs |})
            Samples.upload_accepted)
         DOWNLOADS (py "My_Cool_File") (mkWorld Samples.downloaded []))
  = Ok (Some (py "/content/My_Cool_File.zip"))
  /\ isdir
       (w_fs (snd (create_zip
         (Samples.env (Ok Samples.cool_magnet) (Samples.download_exits 0)
            (Ok {| returncode := 0; stderr := [];
                   effect := fun fs => <[py "/content/My_Cool_File.zip" := File]> fs |})
            Samples.upload_accepted)
         DOWNLOADS (py "My_Cool_File") (mkWorld Samples.downloaded []))))
       DOWNLOADS = true.
Proof.
  destruct (create_zip_after_successful_zip
              (Samples.env (Ok Samples.cool_magnet) (Samples.download_exits 0)
                 (Ok {| returncode := 0; stderr := [];
                        effect := fun fs =>
                          <[py "/content/My_Cool_File.zip" := File]> fs |})
                 Samples.upload_accepted)
              DOWNLOADS (py "My_Cool_File") (mkWorld Samples.downloaded [])
              _ ltac:(vm_compute; reflexivity) eq_refl eq_refl)
    as (H1 & _ & H3).
  split; [exact H1|]. rewrite H3; [vm_compute; reflexivity|].
  vm_compute. discriminate.
Defined.

(** ** More on the uploader *)

Lemma upload_accepted_run
    (E : Env) (file_path : pystr) (w : World) (response : Response)
    (items data : list (pystr * json)) (page : json) :
  isfile (w_fs w) file_path = true ->
  gofile E = Ok response -> status_code response = 200%Z ->
  json_body response = Ok (JObj items) ->
  assoc (py "status") items = Some (JStr (py "ok")) ->
  assoc (py "data") items = Some (JObj data) ->
  assoc (py "downloadPage") data = Some page ->
  upload_to_gofile E file_path w
  = (Ok page,
     mkWorld (w_fs w)
       (EPrint (py "✅ Upload successful!" ++ NL)
        :: EPost (py "https://upload.gofile.io/uploadfile") file_path
        :: EPrint (py "📤 Uploading file..." ++ NL)
        :: EPrint (py "☁️ Uploading to GoFile..." ++ NL)
        :: ECall F_upload_to_gofile :: w_log w)).
Proof.
  intros Hf Hg Hs Hb Hst Hd Hp. destruct w as [fs lg]. cbn [w_fs w_log] in *.
  unfold isfile in Hf.
  destruct (fs !! file_path) as [[|]|] eqn:Hl; try discriminate.
  apply Z.eqb_eq in Hs.
  unfold upload_to_gofile, open_rb. exec. rewrite Hl. exec. rewrite Hg. exec.
  rewrite Hs. exec. rewrite Hb. exec. cbn [dict_get]. rewrite Hst. exec.
  change (json_eq_str (JStr (py "ok")) (py "ok")) with true. exec.
  cbn [subscript]. rewrite Hd. exec. cbn [subscript]. rewrite Hp. exec.
  reflexivity.
Qed.

(** X17: when the file is there and the host answers 200 with a dict
    whose [status] is [ok] and whose [data] holds a [downloadPage], the
    uploader returns that value after one POST, and the filesystem is as
    before. *)
Theorem upload_returns_the_download_page
    (E : Env) (file_path : pystr) (w : World) (response : Response)
    (items data : list (pystr * json)) (page : json) :
  isfile (w_fs w) file_path = true ->
  gofile E = Ok response -> status_code response = 200%Z ->
  json_body response = Ok (JObj items) ->
  assoc (py "status") items = Some (JStr (py "ok")) ->
  assoc (py "data") items = Some (JObj data) ->
  assoc (py "downloadPage") data = Some page ->
  upload_to_gofile E file_path w
  = (Ok page,
     mkWorld (w_fs w)
       (EPrint (py "✅ Upload successful!" ++ NL)
        :: EPost (py "https://upload.gofile.io/uploadfile") file_path
        :: EPrint (py "📤 Uploading file..." ++ NL)
        :: EPrint (py "☁️ Uploading to GoFile..." ++ NL)
        :: ECall F_upload_to_gofile :: w_log w)).
Proof. exact (upload_accepted_run E file_path w response items data page). Qed.

Lemma upload_returns_the_download_page_witness :
  fst (upload_to_gofile Samples.happy (py "/content/My_Cool_File.zip")
         (mkWorld (<[py "/content/My_Cool_File.zip" := File]> ∅) []))
  = Ok (JStr (py "https://gofile.io/d/abc")).
Proof.
  assert (Hf : isfile (w_fs (mkWorld (<[py "/content/My_Cool_File.zip" := File]> ∅) []))
                      (py "/content/My_Cool_File.zip") = true)
    by (vm_compute; reflexivity).
  rewrite (upload_returns_the_download_page Samples.happy
             (py "/content/My_Cool_File.zip")
             (mkWorld (<[py "/content/My_Cool_File.zip" := File]> ∅) [])
             _ _ _ (JStr (py "https://gofile.io/d/abc"))
             Hf eq_refl eq_refl eq_refl eq_refl eq_refl eq_refl).
  reflexivity.
Defined.

(** X18: when the file to upload is not there, the uploader returns
    [None] without sending any request. *)
Theorem upload_without_file_sends_nothing
    (E : Env) (file_path : pystr) (w : World) :
  isfile (w_fs w) file_path = false ->
  exists e,
    upload_to_gofile E file_path w
    = (Ok JNull,
       mkWorld (w_fs w)
         (EPrint ((py "❌ Error uploading file: " ++ str_exn E e) ++ NL)
          :: EPrint (py "☁️ Uploading to GoFile..." ++ NL)
          :: ECall F_upload_to_gofile :: w_log w)).
Proof.
  intros Hf. destruct w as [fs lg]. cbn [w_fs w_log] in *.
  unfold isfile in Hf. unfold upload_to_gofile, open_rb. exec.
  destruct (fs !! file_path) as [[|]|] eqn:Hl; try discriminate; exec;
    eexists; reflexivity.
Qed.

Lemma upload_without_file_sends_nothing_witness :
  fst (upload_to_gofile Samples.happy (py "/content/My_Cool_File.zip")
                        (initial ∅)) = Ok JNull.
Proof.
  assert (Hf : isfile (w_fs (initial ∅)) (py "/content/My_Cool_File.zip")
               = false) by (vm_compute; reflexivity).
  destruct (upload_without_file_sends_nothing Samples.happy
              (py "/content/My_Cool_File.zip") (initial ∅) Hf)
    as (e & ->).
  reflexivity.
Defined.

(** X19: the uploader returns something other than [None] only when the
    file was there, the host answered 200 with a dict whose [status] is
    [ok], and the value is the [downloadPage] of its [data]. *)
Theorem upload_page_only_when_accepted
    (E : Env) (file_path : pystr) (w : World) (page : json) :
  fst (upload_to_gofile E file_path w) = Ok page -> page <> JNull ->
  isfile (w_fs w) file_path = true
  /\ exists response body data,
       gofile E = Ok response /\ status_code response = 200%Z
       /\ json_body response = Ok body /\ status_ok body = true
       /\ subscript body (py "data") = Ok data
       /\ subscript data (py "downloadPage") = Ok page.
Proof.
  destruct w as [fs lg]. cbn [w_fs]. unfold isfile.
  unfold upload_to_gofile, open_rb. exec.
  destruct (fs !! file_path) as [[|]|]; exec;
    try (intros [= <-] Hne; contradiction).
  destruct (gofile E) as [response|e]; exec;
    [|destruct e; exec; try discriminate; intros [= <-] Hne; contradiction].
  destruct (status_code response =? 200)%Z eqn:Hs; exec;
    [|intros [= <-] Hne; contradiction].
  apply Z.eqb_eq in Hs.
  destruct (json_body response) as [body|e] eqn:Hb; exec;
    [|destruct e; exec; try discriminate; intros [= <-] Hne; contradiction].
  destruct (dict_get body (py "status") JNull) as [status|e] eqn:Hst; exec;
    [|destruct e; exec; try discriminate; intros [= <-] Hne; contradiction].
  destruct (json_eq_str status (py "ok")) eqn:Hok; exec.
  - destruct (subscript body (py "data")) as [data|e] eqn:Hd; exec;
      [|destruct e; exec; try discriminate; intros [= <-] Hne; contradiction].
    destruct (subscript data (py "downloadPage")) as [v|e] eqn:Hp; exec;
      [|destruct e; exec; try discriminate; intros [= <-] Hne; contradiction].
    intros [= <-] _. split; [reflexivity|].
    exists response, body, data. unfold status_ok. rewrite Hst. auto 10.
  - destruct (dict_get body (py "error") (JStr (py "Unknown error")))
      as [err|e]; exec;
      [|destruct e; exec; try discriminate]; intros [= <-] Hne; contradiction.
Qed.

Lemma upload_page_only_when_accepted_witness :
  isfile (<[py "/content/My_Cool_File.zip" := File]> ∅)
         (py "/content/My_Cool_File.zip") = true
  /\ exists response body data,
       gofile Samples.happy = Ok response /\ status_code response = 200%Z
       /\ json_body response = Ok body /\ status_ok body = true
       /\ subscript body (py "data") = Ok data
       /\ subscript data (py "downloadPage")
          = Ok (JStr (py "https://gofile.io/d/abc")).
Proof.
  assert (Hrun : fst (upload_to_gofile Samples.happy
                        (py "/content/My_Cool_File.zip")
                        (mkWorld (<[py "/content/My_Cool_File.zip" := File]> ∅) []))
                 = Ok (JStr (py "https://gofile.io/d/abc")))
    by (vm_compute; reflexivity).
  exact (upload_page_only_when_accepted Samples.happy
           (py "/content/My_Cool_File.zip")
           (mkWorld (<[py "/content/My_Cool_File.zip" := File]> ∅) [])
           (JStr (py "https://gofile.io/d/abc")) Hrun ltac:(discriminate)).
Defined.

(** X20: the uploader never changes the filesystem, and the only
    exception it lets through is a [KeyboardInterrupt]. *)
Theorem upload_is_read_only (E : Env) (file_path : pystr) (w : World) :
  w_fs (snd (upload_to_gofile E file_path w)) = w_fs w
  /\ forall e, fst (upload_to_gofile E file_path w) = Raise e ->
               e = KeyboardInterrupt.
Proof.
  destruct w as [fs lg]. cbn [w_fs].
  unfold upload_to_gofile, open_rb. exec.
  destruct (fs !! file_path) as [[|]|]; exec;
    try (split; [reflexivity | discriminate]).
  destruct (gofile E) as [response|e]; exec;
    [|destruct e; exec; split; try reflexivity; try discriminate;
      intros e' [= <-]; reflexivity].
  destruct (status_code response =? 200)%Z; exec;
    [|split; [reflexivity | discriminate]].
  destruct (json_body response) as [body|e]; exec;
    [|destruct e; exec; split; try reflexivity; try discriminate;
      intros e' [= <-]; reflexivity].
  destruct (dict_get body (py "status") JNull) as [status|e] eqn:Hst; exec.
  2:{ destruct body; cbn [dict_get] in Hst; try discriminate Hst;
        try (injection Hst as <-; exec; split; [reflexivity | discriminate]).
      destruct (assoc (py "status") items); discriminate Hst. }
  destruct (json_eq_str status (py "ok")); exec.
  - destruct (subscript body (py "data")) as [data|e] eqn:Hd; exec.
    2:{ destruct body; cbn [subscript] in Hd; try discriminate Hd;
          try (injection Hd as <-; exec; split; [reflexivity | discriminate]).
        destruct (assoc (py "data") items); [discriminate Hd|].
        injection Hd as <-. exec. split; [reflexivity | discriminate]. }
    destruct (subscript data (py "downloadPage")) as [v|e] eqn:Hp; exec;
      [split; [reflexivity | discriminate]|].
    destruct data; cbn [subscript] in Hp; try discriminate Hp;
      try (injection Hp as <-; exec; split; [reflexivity | discriminate]).
    destruct (assoc (py "downloadPage") items); [discriminate Hp|].
    injection Hp as <-. exec. split; [reflexivity | discriminate].
  - destruct (dict_get body (py "error") (JStr (py "Unknown error")))
      as [err|e] eqn:He; exec; [split; [reflexivity | discriminate]|].
    destruct body; cbn [dict_get] in He, Hst; try discriminate Hst.
    destruct (assoc (py "error") items); discriminate He.
Qed.

(** ** More on cleanup *)

Section CleanupShape.

Variable E : Env.

Lemma cleanup_path_cleared p w :
  exists t,
    cleanup_path E p w = (Ok tt, mkWorld (cleared p (w_fs w)) (t ++ w_log w)).
Proof.
  destruct w as [fs lg]. unfold cleared. cbn [w_fs w_log].
  destruct (fs !! p) as [[|]|] eqn:Hp;
    unfold cleanup_path, os_path_exists, os_path_isfile, os_path_isdir,
      os_remove, shutil_rmtree, fs_update, get_fs, path_exists, isfile,
      isdir, remove, rmtree;
    exec; rewrite !Hp; exec.
  - exists [EPrint ((py "🗑️ Deleted file: " ++ p) ++ NL); ERemove p].
    reflexivity.
  - exists [EPrint ((py "🗑️ Deleted directory: " ++ p) ++ NL); ERmtree p].
    reflexivity.
  - exists []. reflexivity.
Qed.

Lemma cleanup_loop_cleared l w :
  exists t,
    for_each l (cleanup_path E) w
    = (Ok tt,
       mkWorld (foldl (fun fs p => cleared p fs) (w_fs w) l) (t ++ w_log w)).
Proof.
  revert w. induction l as [|p l IH]; intros w.
  - exists []. destruct w. reflexivity.
  - destruct (cleanup_path_cleared p w) as (t1 & H1).
    destruct (IH (mkWorld (cleared p (w_fs w)) (t1 ++ w_log w))) as (t2 & H2).
    exists (t2 ++ t1). cbn [for_each foldl]. unfold bind at 1.
    rewrite H1, H2. cbn [w_fs w_log]. rewrite app_assoc. reflexivity.
Qed.

Lemma remove_dups_nil {X} `{EqDecision X} (l : list X) :
  remove_dups l = [] -> l = [].
Proof.
  induction l as [|x l IH]; [reflexivity|]. cbn [remove_dups].
  destruct (decide_rel elem_of x l) as [Hin|Hin]; [|discriminate].
  intros H. rewrite (IH H) in Hin. inversion Hin.
Qed.

(** The filesystem [cleanup_files] leaves. *)
Lemma cleanup_files_fs l w :
  fst (cleanup_files E l w) = Ok tt
  /\ w_fs (snd (cleanup_files E l w))
     = swept (foldl (fun fs p => cleared p fs) (w_fs w) l).
Proof.
  destruct w as [fs lg]. unfold cleanup_files. exec.
  match goal with
  | |- context [for_each l (cleanup_path E) ?w0] =>
    destruct (cleanup_loop_cleared l w0) as (t & H1)
  end.
  rewrite H1. cbn [w_fs w_log] in *.
  generalize (foldl (fun fs p => cleared p fs) fs l). intros fs1.
  unfold swept, DOWNLOADS.
  destruct (fs1 !! py "/content/downloads") as [[|]|] eqn:Hd;
    repeat (progress (exec; unfold path_exists, listdir; rewrite ?Hd));
    try (split; reflexivity).
  destruct (below fs1 (py "/content/downloads")) as [|k ks] eqn:Hb.
  - cbn [map remove_dups]. exec. unfold rmdir. rewrite Hd, Hb. exec.
    split; reflexivity.
  - destruct (remove_dups _) as [|x xs] eqn:Hr; exec; [|split; reflexivity].
    apply remove_dups_nil in Hr. discriminate Hr.
Qed.




(** Paths other than [p] and not below it are left as they are. *)
Lemma cleared_frame (p : pystr) (fs : FS) (k : pystr) :
  k <> p -> under p k = false -> cleared p fs !! k = fs !! k.
Proof.
  intros Hne Hu. unfold cleared. destruct (fs !! p) as [[|]|]; [| |reflexivity].
  - apply lookup_delete_ne. intros ->. apply Hne. reflexivity.
  - destruct (fs !! k) as [x|] eqn:Hk.
    + apply map_lookup_filter_Some. split; [exact Hk | split; assumption].
    + apply map_lookup_filter_None. left. exact Hk.
Qed.




Lemma fold_cleared_frame (l : list pystr) (fs : FS) (k : pystr) :
  (forall p, In p l -> k <> p /\ under p k = false) ->
  foldl (fun fs p => cleared p fs) fs l !! k = fs !! k.
Proof.
  revert fs. induction l as [|q l IH]; intros fs H; cbn [foldl]; [reflexivity|].
  rewrite IH by (intros p Hp; apply H; right; exact Hp).
  destruct (H q (or_introl eq_refl)) as [Hne Hu].
  apply cleared_frame; assumption.
Qed.





Lemma swept_frame (fs : FS) (k : pystr) : k <> DOWNLOADS -> swept fs !! k = fs !! k.
Proof.
  intros Hne. unfold swept. destruct (fs !! DOWNLOADS) as [[|]|]; try reflexivity.
  destruct (below fs DOWNLOADS); [|reflexivity].
  apply lookup_delete_ne. intros Heq. apply Hne. symmetry. exact Heq.
Qed.



End CleanupShape.

(** ** [cleanup_files] when deletions can be refused *)

Section FallibleCleanup.

Variable R : Refusals.
Variable E : Env.













End FallibleCleanup.

(** With a system that refuses nothing, this is the [cleanup_files] of
    the script as modelled above. *)
Lemma fallible_cleanup_path_no_refusals (E : Env) (p : pystr) (w : World) :
  Fallible.cleanup_path no_refusals E p w = cleanup_path E p w.
Proof.
  destruct w as [fs lg].
  destruct (fs !! p) as [[|]|] eqn:Hp;
    unfold Fallible.cleanup_path, Fallible.os_remove, Fallible.shutil_rmtree,
      cleanup_path, os_path_exists, os_path_isfile, os_path_isdir, os_remove,
      shutil_rmtree, fs_update, get_fs, path_exists, isfile, isdir, remove,
      rmtree, no_refusals;
    exec; rewrite !Hp; exec; reflexivity.
Qed.

Lemma fallible_loop_no_refusals (E : Env) (l : list pystr) (w : World) :
  for_each l (Fallible.cleanup_path no_refusals E) w
  = for_each l (cleanup_path E) w.
Proof.
  revert w. induction l as [|p l IH]; intros w; [reflexivity|].
  cbn [for_each]. unfold bind. rewrite fallible_cleanup_path_no_refusals.
  destruct (cleanup_path E p w) as [[[]|e] w1]; [apply IH | reflexivity].
Qed.

Lemma fallible_cleanup_files_no_refusals (E : Env) (l : list pystr) (w : World) :
  Fallible.cleanup_files no_refusals E l w = cleanup_files E l w.
Proof.
  destruct w as [fs lg]. unfold Fallible.cleanup_files, cleanup_files. exec.
  rewrite fallible_loop_no_refusals.
  destruct (for_each l (cleanup_path E) _) as [[[]|e] [fs1 lg1]];
    [|reflexivity].
  unfold Fallible.os_rmdir, os_rmdir, path_exists, listdir, rmdir, fs_update,
    get_fs, no_refusals.
  destruct (fs1 !! py "/content/downloads") as [[|]|] eqn:Hd;
    repeat (progress (exec; rewrite ?Hd)); try reflexivity.
  destruct (remove_dups _); [|reflexivity].
  repeat (progress (exec; rewrite ?Hd)).
  destruct (below fs1 _); reflexivity.
Qed.



(** X22: [cleanup_files] leaves alone every path that is neither one of
    its arguments, nor below one of them, nor the downloads root. *)
Theorem cleanup_files_touches_nothing_else
    (E : Env) (l : list pystr) (w : World) (k : pystr) :
  (forall p, In p l -> k <> p /\ under p k = false) ->
  k <> DOWNLOADS ->
  w_fs (snd (cleanup_files E l w)) !! k = w_fs w !! k.
Proof.
  intros Hl Hk. destruct (cleanup_files_fs E l w) as [_ ->].
  rewrite swept_frame by exact Hk. apply fold_cleared_frame, Hl.
Qed.

Lemma cleanup_files_touches_nothing_else_witness :
  w_fs (snd (cleanup_files Samples.happy
               [py "/content/My_Cool_File.zip"; DOWNLOADS]
               (mkWorld Samples.downloaded [])))
  !! py "/content" = Some Dir.
Proof.
  rewrite (cleanup_files_touches_nothing_else Samples.happy
             [py "/content/My_Cool_File.zip"; DOWNLOADS]
             (mkWorld Samples.downloaded []) (py "/content")).
  - vm_compute. reflexivity.
  - intros p [<-|[<-|[]]]; split; (discriminate || reflexivity).
  - discriminate.
Defined.




(** ** More on the orchestration *)

Section CallOrder.

Lemma calls_of_app a b : calls_of (a ++ b) = calls_of a ++ calls_of b.
Proof.
  induction a as [|e a IH]; [reflexivity|].
  destruct e; cbn [app calls_of]; rewrite IH; reflexivity.
Qed.

Lemma calls_of_rev t : calls_of (rev t) = rev (calls_of t).
Proof.
  induction t as [|e t IH]; [reflexivity|].
  cbn [rev]. rewrite calls_of_app, IH.
  destruct e; cbn [calls_of rev]; rewrite ?app_nil_r; reflexivity.
Qed.

Lemma calls_of_quiet t : (forall g, ~ In (ECall g) t) -> calls_of t = [].
Proof.
  induction t as [|e t IH]; intros H; [reflexivity|].
  destruct e; cbn [calls_of];
    try (apply IH; intros g Hg; apply (H g); right; exact Hg).
  exfalso. apply (H f). left. reflexivity.
Qed.

End CallOrder.

(** Computes the calls of a log known piece by piece. *)
Ltac calls_of_log :=
  unfold trace; cbn [w_log]; rewrite calls_of_rev;
  repeat first
    [ rewrite calls_of_app
    | match goal with
      | Hq : forall g, ~ In (ECall g) ?t |- context [calls_of ?t] =>
        rewrite (calls_of_quiet t Hq)
      end
    | progress cbn [calls_of app] ];
  cbn [rev app].

(** X25: whatever happens, [main] enters the functions of the script in
    the order of the pipeline: each step only after the one before, the
    uploader always followed by [cleanup_files], and [cleanup_files] at
    most once, last. *)
Theorem main_enters_functions_in_order (E : Env) (fs : FS) :
  In (calls_of (trace (snd (main E (initial fs)))))
     [ [F_install_dependencies];
       [F_install_dependencies; F_get_torrent_info; F_download_torrent];
       [F_install_dependencies; F_get_torrent_info; F_download_torrent;
        F_cleanup_files];
       [F_install_dependencies; F_get_torrent_info; F_download_torrent;
        F_create_zip];
       [F_install_dependencies; F_get_torrent_info; F_download_torrent;
        F_create_zip; F_cleanup_files];
       [F_install_dependencies; F_get_torrent_info; F_download_torrent;
        F_create_zip; F_upload_to_gofile; F_cleanup_files] ].
Proof.
  destruct (main E (initial fs)) as [r w] eqn:H. cbn [snd].
  paths E H; finish H; calls_of_log; cbn [In]; auto 10.
Qed.

Section MainRuns.

Variable E : Env.

(** When both apt-get runs succeed, [install_dependencies] returns. *)
Lemma install_dependencies_ok u i w :
  apt_update E = Ok u -> returncode u = 0%Z ->
  apt_install E = Ok i -> returncode i = 0%Z ->
  install_dependencies E w
  = (Ok tt,
     mkWorld (effect i (effect u (w_fs w)))
       (EPrint (py "✅ Dependencies installed!" ++ NL)
        :: ESpawn apt_install_cmd None
        :: ESpawn apt_update_cmd None
        :: EPrint (py "🔧 Installing dependencies..." ++ NL)
        :: ECall F_install_dependencies :: w_log w)).
Proof.
  intros Hu Hu0 Hi Hi0. destruct w as [fs lg].
  apply Z.eqb_eq in Hu0. apply Z.eqb_eq in Hi0.
  unfold install_dependencies, subprocess_run_check, subprocess_run.
  exec. rewrite Hu. exec. rewrite Hu0. exec. rewrite Hi. exec.
  rewrite Hi0. exec. reflexivity.
Qed.

Lemma main_returns fs raw :
  apt_succeeds E -> stdin_line E = Ok raw ->
  exists o, fst (main E (initial fs)) = Ok o.
Proof.
  intros (u & i & Hu & Hu0 & Hi & Hi0) Hline.
  destruct (main E (initial fs)) as [r w] eqn:H. cbn [fst].
  paths E H; finish H; try (eexists; reflexivity); exfalso;
    first
      [ discriminate Hline
      | match goal with
        | Hr : stdin_line E = Raise _ |- _ =>
          rewrite Hline in Hr; discriminate Hr
        end
      | match goal with
        | Hr : install_dependencies E _ = (Raise _, _) |- _ =>
          rewrite (install_dependencies_ok u i _ Hu Hu0 Hi Hi0) in Hr;
          discriminate Hr
        end ].
Qed.

Lemma main_early_returns fs o w :
  main E (initial fs) = (Ok o, w) ->
  o = DownloadFailed \/ o = EmptyDownload \/ o = ArchiveFailed ->
  ~ called F_cleanup_files (trace w) /\ ~ called F_upload_to_gofile (trace w).
Proof.
  intros H Ho.
  paths E H; try discriminate H; injection H as <- <-;
    try (destruct Ho as [Ho|[Ho|Ho]]; discriminate Ho);
    split; not_called.
Qed.

End MainRuns.

(** X26: once the dependencies are installed and a line has been read,
    [main] always returns: whatever is raised afterwards, a
    [KeyboardInterrupt] included, is handled inside. *)
Theorem main_returns_once_input_is_read (E : Env) (fs : FS) (raw : pystr) :
  apt_succeeds E -> stdin_line E = Ok raw ->
  exists o, fst (main E (initial fs)) = Ok o.
Proof. exact (main_returns E fs raw). Qed.

Lemma main_returns_once_input_is_read_witness :
  exists o, fst (main Samples.download_fails (initial ∅)) = Ok o.
Proof.
  apply (main_returns_once_input_is_read Samples.download_fails ∅
           Samples.cool_magnet).
  - exists Samples.nothing_done, Samples.nothing_done. repeat split.
  - reflexivity.
Defined.

(** X27: when apt-get update exits with a status other than 0, [main]
    ends with an uncaught [CalledProcessError]: apt-get install is not
    run and the user is never prompted. *)
Theorem failed_apt_update_aborts_main
    (E : Env) (fs : FS) (u : CompletedProcess) :
  apt_update E = Ok u -> returncode u <> 0%Z ->
  fst (main E (initial fs))
  = Raise (CalledProcessError apt_update_cmd (returncode u))
  /\ trace (snd (main E (initial fs)))
     = [EPrint (py "🚀 Torrent Download & Upload Bot" ++ NL);
        EPrint (replicate 50 0x3D ++ NL);
        ECall F_install_dependencies;
        EPrint (py "🔧 Installing dependencies..." ++ NL);
        ESpawn apt_update_cmd None].
Proof.
  intros Hu Hrc. apply Z.eqb_neq in Hrc.
  unfold main, install_dependencies, subprocess_run_check, subprocess_run,
    initial.
  exec. rewrite Hu. exec. rewrite Hrc. exec. split; reflexivity.
Qed.

Lemma failed_apt_update_aborts_main_witness :
  fst (main {| unquote_escapes := fun s => s; str_lower := fun s => s;
               str_json := fun _ => []; str_exn := fun _ => [];
               apt_update := Ok {| returncode := 100; stderr := [];
                                   effect := fun fs => fs |};
               apt_install := Ok Samples.nothing_done;
               stdin_line := Ok Samples.cool_magnet; clock := 0%Z;
               aria2c := Samples.download_exits 0;
               zip := Raise KeyboardInterrupt;
               gofile := Raise KeyboardInterrupt |} (initial ∅))
  = Raise (CalledProcessError apt_update_cmd 100).
Proof.
  exact (proj1 (failed_apt_update_aborts_main
                  {| unquote_escapes := fun s => s; str_lower := fun s => s;
                     str_json := fun _ => []; str_exn := fun _ => [];
                     apt_update := Ok {| returncode := 100; stderr := [];
                                         effect := fun fs => fs |};
                     apt_install := Ok Samples.nothing_done;
                     stdin_line := Ok Samples.cool_magnet; clock := 0%Z;
                     aria2c := Samples.download_exits 0;
                     zip := Raise KeyboardInterrupt;
                     gofile := Raise KeyboardInterrupt |} ∅ _
                  eq_refl ltac:(discriminate))).
Defined.

(** X28: when [main] returns through the download-failure, empty-result
    or archive-failure exit, it has called neither [cleanup_files] nor
    the uploader. *)
Theorem early_returns_skip_cleanup_and_upload
    (E : Env) (fs : FS) (o : outcome) (w : World) :
  main E (initial fs) = (Ok o, w) ->
  o = DownloadFailed \/ o = EmptyDownload \/ o = ArchiveFailed ->
  ~ called F_cleanup_files (trace w) /\ ~ called F_upload_to_gofile (trace w).
Proof. exact (main_early_returns E fs o w). Qed.

Lemma early_returns_skip_cleanup_and_upload_witness :
  fst (main Samples.download_fails (initial ∅)) = Ok DownloadFailed
  /\ ~ called F_cleanup_files
        (trace (snd (main Samples.download_fails (initial ∅))))
  /\ ~ called F_upload_to_gofile
        (trace (snd (main Samples.download_fails (initial ∅)))).
Proof.
  assert (Hrun : main Samples.download_fails (initial ∅)
                 = (Ok DownloadFailed,
                    snd (main Samples.download_fails (initial ∅))))
    by (vm_compute; reflexivity).
  split; [rewrite Hrun; reflexivity|].
  exact (early_returns_skip_cleanup_and_upload Samples.download_fails ∅
           DownloadFailed _ Hrun (or_introl eq_refl)).
Defined.

Section MainForward.

Variables (E : Env) (fs : FS) (raw : pystr) (u i : CompletedProcess).
Hypothesis Hu : apt_update E = Ok u.
Hypothesis Hu0 : returncode u = 0%Z.
Hypothesis Hi : apt_install E = Ok i.
Hypothesis Hi0 : returncode i = 0%Z.
Hypothesis Hline : stdin_line E = Ok raw.
Hypothesis Hvalid : startswith MAGNET (strip raw) = true.



End MainForward.

Section InterruptedDownload.

Variables (E : Env) (fs : FS) (raw : pystr) (u i : CompletedProcess)
  (fs1 : FS) (p : Process).
Hypothesis Hu : apt_update E = Ok u.
Hypothesis Hu0 : returncode u = 0%Z.
Hypothesis Hi : apt_install E = Ok i.
Hypothesis Hi0 : returncode i = 0%Z.
Hypothesis Hline : stdin_line E = Ok raw.
Hypothesis Hvalid : startswith MAGNET (strip raw) = true.
Hypothesis Hmk : makedirs (effect i (effect u fs)) DOWNLOADS = Ok fs1.
Hypothesis Ha : aria2c E = Ok p.
Hypothesis He : ending p = Raise KeyboardInterrupt.


End InterruptedDownload.



Section SuccessfulRun.

Variables (E : Env) (fs : FS) (raw : pystr) (u i : CompletedProcess)
  (fs1 : FS) (p : Process) (run : CompletedProcess) (response : Response)
  (items data : list (pystr * json)) (page : json).
Hypothesis Hu : apt_update E = Ok u.
Hypothesis Hu0 : returncode u = 0%Z.
Hypothesis Hi : apt_install E = Ok i.
Hypothesis Hi0 : returncode i = 0%Z.
Hypothesis Hline : stdin_line E = Ok raw.
Hypothesis Hvalid : startswith MAGNET (strip raw) = true.
Hypothesis Hmk : makedirs (effect i (effect u fs)) DOWNLOADS = Ok fs1.
Hypothesis Ha : aria2c E = Ok p.
Hypothesis He : ending p = Ok 0%Z.
Hypothesis Hdir : isdir (p_effect p fs1) DOWNLOADS = true.
Hypothesis Hfiles : below (p_effect p fs1) DOWNLOADS <> [].
Hypothesis Hz : zip E = Ok run.
Hypothesis Hz0 : returncode run = 0%Z.
Hypothesis Hmoved :
  zip_moved (p_effect p fs1) run DOWNLOADS
            (archive_path (torrent_name E (strip raw))).
Hypothesis Hg : gofile E = Ok response.
Hypothesis Hs : status_code response = 200%Z.
Hypothesis Hb : json_body response = Ok (JObj items).
Hypothesis Hst : assoc (py "status") items = Some (JStr (py "ok")).
Hypothesis Hdata : assoc (py "data") items = Some (JObj data).
Hypothesis Hpage : assoc (py "downloadPage") data = Some page.
Hypothesis Htruthy : truthy page = true.



End SuccessfulRun.


